(** * Smart RCE: energy-management logic of the Home Assistant integration

    Shallow embedding of [custom_components/smart_rce/domain/ems.py]
    (charge-window search, plan construction, water-heater rules) and of
    the refresh policy in [custom_components/smart_rce/coordinator.py].

    Python floats are modelled as rationals [Q]; Python's comparison
    operators on them as the boolean tests [qlt], [qle], [qeq] below.
    [statistics.mean] computes the exact mean of its argument, which is
    what [mean] does. *)

From Stdlib Require Import ZArith QArith Qround List Bool Lia Lqa.
From Stdlib Require String.
Import ListNotations.

Open Scope Z_scope.

(** Python's [<], [<=] and [==] on numbers. *)
Definition qlt (x y : Q) : bool := negb (Qle_bool y x).
Definition qle (x y : Q) : bool := Qle_bool x y.
Definition qeq (x y : Q) : bool := Qeq_bool x y.

(** Exceptions the modelled code can raise. *)
Inductive exn :=
| TypeError
| ValueError
| IndexError
| UpdateFailed.

Inductive result (A : Type) :=
| Ok (a : A)
| Err (e : exn).
Arguments Ok {A} a.
Arguments Err {A} e.

(** Python numbers as the code produces them: an [int] or a [float]. *)
Inductive pynum :=
| PyInt (z : Z)
| PyFloat (q : Q).

(** [math.floor] of a Python number. *)
Definition py_floor (n : pynum) : Z :=
  match n with
  | PyInt z => z
  | PyFloat q => Qfloor q
  end.

Module Ems.

Definition MAX_CONSECUTIVE_HOURS : nat := 8.
Definition INITIAL_BEST_CONSECUTIVE_HOURS : nat := 3.
(** [range(3, MAX_CONSECUTIVE_HOURS + 1)] *)
Definition POSSIBLE_CONSECUTIVE_HOURS : list nat :=
  seq 3 (MAX_CONSECUTIVE_HOURS + 1 - 3).

(** [prices[a:b]] *)
Definition slice (l : list Q) (a b : nat) : list Q :=
  firstn (b - a) (skipn a l).

Definition sum (l : list Q) : Q := fold_right Qplus 0%Q l.

(** [statistics.mean]; it raises on an empty list, which never happens for
    the slices [prices[h : h + L]] with [h <= 15], [L <= 8] of a 24-entry
    series. *)
Definition mean (l : list Q) : Q := (sum l / inject_Z (Z.of_nat (length l)))%Q.

(** [max] of a non-empty list. *)
Definition max_list (l : list Q) : Q :=
  match l with
  | [] => 0%Q
  | x :: xs => fold_left (fun m y => if qlt m y then y else m) xs x
  end.

(** The [min_avg] of the inner loop: [None] is [float("inf")]. *)
Definition lt_min (avg : Q) (min_avg : option Q) : bool :=
  match min_avg with
  | None => true
  | Some m => qlt avg m
  end.

(** Inner loop of [calculate_start_charge_hours]:
    [for hour in hours: avg = mean(prices[hour : hour + L]);
     if avg < min_avg: min_avg = avg; best_hour = hour]. *)
Fixpoint scan (prices : list Q) (L : nat) (hours : list nat)
    (min_avg : option Q) (best_hour : nat) : nat :=
  match hours with
  | [] => best_hour
  | hour :: hs =>
      let avg := mean (slice prices hour (hour + L)) in
      if lt_min avg min_avg then scan prices L hs (Some avg) hour
      else scan prices L hs min_avg best_hour
  end.

(** [calculate_start_charge_hours(prices)]: the dictionary, read at key
    [consecutive_hours] (the keys are [POSSIBLE_CONSECUTIVE_HOURS]). *)
Definition calculate_start_charge_hours (prices : list Q) (consecutive_hours : nat) : nat :=
  scan prices consecutive_hours (seq 6 10) None 0.

(** The test of the [for] loop of [find_best_consecutive_hours]. *)
Definition adopt (prices : list Q) (best_hour : nat) (cap : Q) (candidate : nat) : bool :=
  Nat.eqb candidate best_hour
  || (Nat.ltb candidate best_hour
      && (qlt (nth candidate prices 0%Q) 100
          || qlt (nth candidate prices 0%Q - cap) 45)).

(** [filter(lambda x: x > 3, POSSIBLE_CONSECUTIVE_HOURS)] *)
Definition hours_to_check : list nat :=
  filter (fun x => Nat.ltb INITIAL_BEST_CONSECUTIVE_HOURS x) POSSIBLE_CONSECUTIVE_HOURS.

Definition find_best_consecutive_hours (prices : list Q) (start_charge_hours : nat -> nat) : nat :=
  let best_hour := start_charge_hours INITIAL_BEST_CONSECUTIVE_HOURS in
  let initial_consecutive_hours_max_price :=
    max_list (slice prices best_hour (best_hour + INITIAL_BEST_CONSECUTIVE_HOURS)) in
  fold_left
    (fun best_consecutive_hours consecutive_hours =>
       if adopt prices best_hour initial_consecutive_hours_max_price
            (start_charge_hours consecutive_hours)
       then consecutive_hours else best_consecutive_hours)
    hours_to_check INITIAL_BEST_CONSECUTIVE_HOURS.

(** [EmsDayPrices]; [day] is the day number of [prices[0]["datetime"]]. *)
Record EmsDayPrices := {
  day : Z;
  hour_price : list Q;
  start_charge_hours : nat -> nat;
  best_consecutive_hours : nat
}.

Definition find_charge_hours (d : Z) (prices : list Q) : EmsDayPrices :=
  let sch := calculate_start_charge_hours prices in
  {| day := d;
     hour_price := prices;
     start_charge_hours := sch;
     best_consecutive_hours := find_best_consecutive_hours prices sch |}.

(** [best_hour - 0.5] is a [float]; otherwise the [int] is returned. *)
Definition best_start_charge_hour (p : EmsDayPrices) : pynum :=
  let best_hour := Z.of_nat (start_charge_hours p (best_consecutive_hours p)) in
  if Nat.eqb (best_consecutive_hours p) INITIAL_BEST_CONSECUTIVE_HOURS
  then PyFloat (inject_Z best_hour - (1 # 2))%Q
  else PyInt best_hour.

Definition best_end_charge_hour (p : EmsDayPrices) : pynum :=
  let best_consecutive := best_consecutive_hours p in
  PyInt (Z.of_nat (start_charge_hours p best_consecutive) + Z.of_nat best_consecutive).

(** A timezone-aware [datetime] on the day of the plan. *)
Record DateTime := { dt_day : Z; dt_hour : Z; dt_minute : Z; dt_second : Z }.

(** [int(hour * 60 % 60)] *)
Definition minute_of (hour : pynum) : Z :=
  match hour with
  | PyInt h => (h * 60) mod 60
  | PyFloat q => Qfloor (Qmake (Qnum q * 60 mod (60 * Zpos (Qden q))) (Qden q))
  end.

(** [datetime.time(hour, minute, second)]: the arguments must be [int]s
    ([TypeError] otherwise) in range ([ValueError] otherwise). *)
Definition time (d : Z) (hour : pynum) (minute second : Z) : result DateTime :=
  match hour with
  | PyFloat _ => Err TypeError
  | PyInt h =>
      if (0 <=? h) && (h <=? 23) && (0 <=? minute) && (minute <=? 59)
         && (0 <=? second) && (second <=? 59)
      then Ok {| dt_day := d; dt_hour := h; dt_minute := minute; dt_second := second |}
      else Err ValueError
  end.

Definition hour_to_timestamp (p : EmsDayPrices) (hour : pynum) : result DateTime :=
  let minute := minute_of hour in
  time (day p) hour minute 0.

Record EmsDayData := {
  dd_hour_price : option (list Q);
  dd_start_charge_hour : option pynum;
  dd_start_charge_hour_datetime : option DateTime;
  dd_end_charge_hour : option pynum;
  dd_end_charge_hour_datetime : option DateTime
}.

Definition EmsDayData_empty : EmsDayData :=
  {| dd_hour_price := None; dd_start_charge_hour := None;
     dd_start_charge_hour_datetime := None; dd_end_charge_hour := None;
     dd_end_charge_hour_datetime := None |}.

(** [EmsDayData.create]: the keyword arguments are evaluated in order. *)
Definition EmsDayData_create (prices : EmsDayPrices) : result EmsDayData :=
  let start_charge_hour := best_start_charge_hour prices in
  let end_charge_hour := best_end_charge_hour prices in
  match hour_to_timestamp prices start_charge_hour with
  | Err e => Err e
  | Ok sdt =>
      match hour_to_timestamp prices end_charge_hour with
      | Err e => Err e
      | Ok edt =>
          Ok {| dd_hour_price := Some (hour_price prices);
                dd_start_charge_hour := Some start_charge_hour;
                dd_start_charge_hour_datetime := Some sdt;
                dd_end_charge_hour := Some end_charge_hour;
                dd_end_charge_hour_datetime := Some edt |}
      end
  end.

(** The winner search of Step 2 read with a moving winner hour: once a
    length [L] is adopted, later candidates are compared with
    [bestStart[L]] instead of [bestStart[3]]; [capPrice] stays the one of
    the length-3 window.  Used only to be compared with
    [find_best_consecutive_hours]. *)
Definition find_best_winner_tracking (prices : list Q) (bestStart : nat -> nat) : nat :=
  let h3 := bestStart INITIAL_BEST_CONSECUTIVE_HOURS in
  let capPrice := max_list (slice prices h3 (h3 + 3)) in
  fst (fold_left
         (fun (w : nat * nat) L =>
            let '(winnerLength, winnerHour) := w in
            let candidateHour := bestStart L in
            if adopt prices winnerHour capPrice candidateHour
            then (L, candidateHour) else (winnerLength, winnerHour))
         [4; 5; 6; 7; 8]%nat (INITIAL_BEST_CONSECUTIVE_HOURS, h3)).

(** [RceDayPrices] as the optimizer reads it: the day of its first entry
    and the ["price"] of each entry, in order. *)
Record RceDayPrices := { rce_day : Z; rce_prices : list Q }.

(** [RceData]; [None] fields are Python [None]. *)
Record RceData := {
  fetched_at : Z;
  today : option RceDayPrices;
  tomorrow : option RceDayPrices
}.

(** The attributes of [Ems] the price updates write. *)
Record EmsState := {
  ems_today : EmsDayData;
  ems_tomorrow : EmsDayData;
  ems_rce_data : option RceData;
  ems_current_price : option Q
}.

Definition create_for (r : RceDayPrices) : result EmsDayData :=
  EmsDayData_create (find_charge_hours (rce_day r) (rce_prices r)).

(** [Ems.update_hourly] ([now.hour] given); listeners are not modelled.
    An empty [hour_price] tuple is falsy. *)
Definition update_hourly (hour : nat) (s : EmsState) : EmsState * result unit :=
  match dd_hour_price (ems_today s) with
  | None | Some [] => (s, Ok tt)
  | Some hp =>
      match nth_error hp hour with
      | None => (s, Err IndexError)
      | Some price =>
          ({| ems_today := ems_today s; ems_tomorrow := ems_tomorrow s;
              ems_rce_data := ems_rce_data s; ems_current_price := Some price |}, Ok tt)
      end
  end.

(** [Ems.update_rce(now, data)]: the attributes are assigned one after the
    other, so an exception leaves the assignments made before it. *)
Definition update_rce (hour : nat) (data : option RceData) (s : EmsState)
    : EmsState * result unit :=
  match data with
  | None => (s, Ok tt)
  | Some d =>
      let s1 := {| ems_today := ems_today s; ems_tomorrow := ems_tomorrow s;
                   ems_rce_data := Some d; ems_current_price := ems_current_price s |} in
      let r2 :=
        match today d with
        | None => Ok s1
        | Some t =>
            match create_for t with
            | Err e => Err e
            | Ok dd => Ok {| ems_today := dd; ems_tomorrow := ems_tomorrow s1;
                             ems_rce_data := ems_rce_data s1;
                             ems_current_price := ems_current_price s1 |}
            end
        end in
      match r2 with
      | Err e => (s1, Err e)
      | Ok s2 =>
          let r3 :=
            match tomorrow d with
            | None => Ok EmsDayData_empty
            | Some t => create_for t
            end in
          match r3 with
          | Err e => (s2, Err e)
          | Ok dd =>
              update_hourly hour
                {| ems_today := ems_today s2; ems_tomorrow := dd;
                   ems_rce_data := ems_rce_data s2;
                   ems_current_price := ems_current_price s2 |}
          end
      end
  end.

(** [InputState]: [None] is an absent signal. *)
Record InputState := {
  water_heater_is_on : option bool;
  battery_soc : option Q;
  battery_power_2_minutes : option Q;
  consumption_minus_pv_2_minutes : option Q;
  exported_energy_hourly : option Q
}.

Definition HEATER_POWER : Q := 3000.

Definition _none_present (st : InputState) : bool :=
  match water_heater_is_on st, battery_soc st, battery_power_2_minutes st,
        consumption_minus_pv_2_minutes st, exported_energy_hourly st with
  | Some _, Some _, Some _, Some _, Some _ => false
  | _, _, _, _, _ => true
  end.

(** The [if/elif] chain on [battery_soc] of [WaterHeaterManager._update],
    starting from [turn_on = turn_off = False]. *)
Definition tiers (battery_soc pv_available battery_power : Q) : bool * bool :=
  if qle battery_soc 89 then
    (qlt (5200 - 1500) pv_available, qlt battery_power (1900 - 1000))
  else if qle battery_soc 96 then
    (qlt (4500 - 1500) pv_available, qlt battery_power (1000 - 900))
  else if qeq battery_soc 97 || qeq battery_soc 98 then
    (qlt 3500 pv_available, qlt battery_power (400 - 300))
  else if qeq battery_soc 99 then
    (qlt 3300 pv_available, qlt battery_power (290 - 200))
  else if qeq battery_soc 100 then
    (qlt HEATER_POWER pv_available, qlt pv_available 0)
  else (false, false).

(** The [if battery_soc >= 90:] block after the chain. *)
Definition overrides (water_heater_is_on : bool) (battery_soc pv_available exported_energy : Q)
    (t : bool * bool) : bool * bool :=
  let '(turn_on, turn_off) := t in
  if qle 90 battery_soc then
    let '(turn_on, turn_off) :=
      if qlt 300 exported_energy && qlt 0 pv_available then (true, false)
      else (turn_on, turn_off) in
    let turn_off := if qlt 80 exported_energy && water_heater_is_on then false else turn_off in
    (turn_on, turn_off)
  else (turn_on, turn_off).

Definition _update (st : InputState) : bool * bool :=
  if _none_present st then (false, false) else
  match water_heater_is_on st, battery_soc st, battery_power_2_minutes st,
        consumption_minus_pv_2_minutes st, exported_energy_hourly st with
  | Some on, Some soc, Some bp, Some cmp, Some exp =>
      let pv_available := (- cmp)%Q in
      let battery_power := (- bp)%Q in
      let exported_energy := (exp * 1000)%Q in
      overrides on soc pv_available exported_energy (tiers soc pv_available battery_power)
  | _, _, _, _, _ => (false, false) (* excluded by [_none_present] *)
  end.

End Ems.

Module Coordinator.
Import Ems.

(** Local datetimes as seconds since a midnight; [now.date()] and
    [now.hour]. *)
Definition date_of (t : Z) : Z := t / 86400.
Definition hour_of (t : Z) : Z := (t mod 86400) / 3600.
Definition DAY : Z := 86400.

Definition RCE_TOMORROW_PUBLICATION_HOUR : Z := 14.
Definition MINIMUM_TIME_BETWEEN_FETCHES_SECONDS : Z := 14 * 60.

(** The Python values the elapsed-time test compares: a number, or the
    bound method [timedelta.total_seconds] read without calling it. *)
Inductive pyval :=
| VNum (n : Z)
| VBoundMethod.

(** [a > b]: numbers compare; a method and an [int] raise [TypeError]. *)
Definition py_gt (a b : pyval) : result bool :=
  match a, b with
  | VNum x, VNum y => Ok (x >? y)
  | _, _ => Err TypeError
  end.

(** [(now - fetched_at).total_seconds] (no call). *)
Definition total_seconds_attr (elapsed : Z) : pyval := VBoundMethod.

(** What [RceApi.async_get_prices(day)] does for a given [day] within the
    10 s [timeout]: returns (possibly [None]) or raises. *)
Inductive fetch_outcome :=
| Fetched (p : option RceDayPrices)
| FetchFailed.

(** The refresh monad: the list of days fetched so far, threaded through,
    and an exception that aborts the rest. *)
Definition M (A : Type) := list Z -> list Z * result A.

Definition ret {A} (a : A) : M A := fun log => (log, Ok a).
Definition bind {A B} (m : M A) (k : A -> M B) : M B :=
  fun log => match m log with
             | (log', Ok a) => k a log'
             | (log', Err e) => (log', Err e)
             end.
Definition raise {A} (e : exn) : M A := fun log => (log, Err e).
Definition lift {A} (r : result A) : M A := fun log => (log, r).

Notation "x <- m ;; k" := (bind m (fun x => k)) (at level 61, m at next level, right associativity).

Section Refresh.
Variable api : Z -> fetch_outcome.

(** [_fetch_prices_for_day]: any exception becomes [UpdateFailed]. *)
Definition _fetch_prices_for_day (d : Z) : M (option RceDayPrices) :=
  fun log =>
    let log' := log ++ [d] in
    match api d with
    | Fetched p => (log', Ok p)
    | FetchFailed => (log', Err UpdateFailed)
    end.

Definition _full_update (now : Z) : M RceData :=
  t <- _fetch_prices_for_day now ;;
  tm <- _fetch_prices_for_day (now + DAY) ;;
  ret {| fetched_at := now; today := t; tomorrow := tm |}.

(** [_async_update_data]; [self.data] is [data]. *)
Definition _async_update_data (now : Z) (data : option RceData) : M RceData :=
  match data with
  | None => _full_update now
  | Some d =>
      match today d with
      | None => _full_update now
      | Some t =>
          if negb (date_of (fetched_at d) =? date_of now) then _full_update now
          else match tomorrow d with
          | Some _ => ret d
          | None =>
              if RCE_TOMORROW_PUBLICATION_HOUR <=? hour_of now then
                let elapsed_seconds := total_seconds_attr (now - fetched_at d) in
                b <- lift (py_gt elapsed_seconds (VNum MINIMUM_TIME_BETWEEN_FETCHES_SECONDS)) ;;
                if b then
                  tm <- _fetch_prices_for_day (now + DAY) ;;
                  ret {| fetched_at := now; today := Some t; tomorrow := tm |}
                else ret d
              else ret d
          end
      end
  end.

(** The host framework's [DataUpdateCoordinator._async_refresh] around
    [_async_update_data]: on success [data] is replaced; on [UpdateFailed]
    or any other exception [data] is kept and [last_update_success] is
    cleared. *)
Record CoordState := {
  data : option RceData;
  last_update_success : bool;
  last_exception : option exn
}.

Definition async_refresh (now : Z) (st : CoordState) : CoordState * list Z :=
  match _async_update_data now (data st) [] with
  | (log, Ok d) =>
      ({| data := Some d; last_update_success := true; last_exception := None |}, log)
  | (log, Err e) =>
      ({| data := data st; last_update_success := false; last_exception := Some e |}, log)
  end.

End Refresh.
End Coordinator.

(** Concrete price series used below. *)
Module Series.
Open Scope Q_scope.

(** Cheap hours 6-8, an expensive hour 9, then a flat 10: the longer
    windows all start at 10, the 3-hour window at 6. *)
Definition early_dip : list Q :=
  [10;10;10;10;10;10; 0;0;0;1000; 10;10;10;10;10;10;10;10;10;10;10;10;10;10].

(** [bestStart] is 12, 6, 12, 11, 8, 7 for lengths 3 to 8. *)
Definition two_dips : list Q :=
  [100;100;100;100;100;100; 1;1;1;1; 50;50;0;0;0;50;0;100;100;100;100;100;100;100].

End Series.

(** The sensors of [sensor.py] that turn the plan into a time of day. *)
Module Sensors.
Import Ems.
Import Stdlib.Strings.String.

(** [int(x)]: truncation toward zero. *)
Definition py_int (n : pynum) : Z :=
  match n with
  | PyInt z => z
  | PyFloat q => Z.quot (Qnum q) (Zpos (Qden q))
  end.

(** [x * 60 % 60]; Python's [%] takes the sign of the divisor. *)
Definition times60_mod60 (n : pynum) : pynum :=
  match n with
  | PyInt z => PyInt ((z * 60) mod 60)
  | PyFloat q =>
      let x := (q * 60)%Q in
      PyFloat (x - 60 * inject_Z (Qfloor (x / 60)))%Q
  end.

(** [now.replace(hour=hour, minute=minute, second=0, microsecond=0)]. *)
Definition datetime_replace (now_day hour minute : Z) : result DateTime :=
  if (0 <=? hour) && (hour <=? 23) && (0 <=? minute) && (minute <=? 59)
  then Ok {| dt_day := now_day; dt_hour := hour; dt_minute := minute; dt_second := 0 |}
  else Err ValueError.

(** The timestamp computed by
    [SmartRceStartChargeHourTimeSensor._handle_coordinator_update] from
    the start hour of the plan. *)
Definition start_charge_hour_time (now_day : Z) (p : EmsDayPrices) : result DateTime :=
  let start_charge_hour := best_start_charge_hour p in
  let hour := py_int start_charge_hour in
  let minute := py_int (times60_mod60 start_charge_hour) in
  datetime_replace now_day hour minute.

(** [getattr(p, name)()] for the methods of [EmsDayPrices] that return an
    hour without arguments; [None] is the [AttributeError] of a name the
    class does not define. *)
Definition EmsDayPrices_method0 (p : EmsDayPrices) (name : String.string) : option pynum :=
  if String.eqb name "best_start_charge_hour"%string then Some (best_start_charge_hour p)
  else if String.eqb name "best_end_charge_hour"%string then Some (best_end_charge_hour p)
  else None.

Inductive outcome := Done | RaisedAttributeError.

(** [SmartRceEndChargeHourSensor._handle_coordinator_update]: the new
    [_end_charge_hour] and whether the call raised. *)
Definition end_charge_hour_update (data : option RceData) (end_charge_hour : option pynum)
    : option pynum * outcome :=
  match data with
  | Some d =>
      match today d with
      | Some t =>
          let ems_prices := find_charge_hours (rce_day t) (rce_prices t) in
          match EmsDayPrices_method0 ems_prices "end_start_charge_hour"%string with
          | Some h => (Some h, Done)
          | None => (end_charge_hour, RaisedAttributeError)
          end
      | None => (end_charge_hour, Done)
      end
  | None => (end_charge_hour, Done)
  end.

End Sensors.

(** The adapter of [adapter.py] from Home Assistant states to an
    [InputState]. *)
Module Adapter.
Import Ems.
Import Stdlib.Strings.String.

(** The keys of [HASS_STATE_MAPPER], in its order. *)
Inductive Entity :=
| water_heater_switch
| battery_state_of_charge
| battery_power_avg_2_minutes
| house_consumption_minus_pv_avg_2_minutes
| total_export_import_hourly.

Definition entity_id (e : Entity) : String.string :=
  match e with
  | water_heater_switch => "switch.grzalka_wody_local"%string
  | battery_state_of_charge => "sensor.battery_state_of_charge"%string
  | battery_power_avg_2_minutes => "sensor.battery_power_avg_2_minutes"%string
  | house_consumption_minus_pv_avg_2_minutes => "sensor.house_consumption_minus_pv_avg_2_minutes"%string
  | total_export_import_hourly => "sensor.total_export_import_hourly"%string
  end.

Definition HASS_STATE_MAPPER_keys : list Entity :=
  [water_heater_switch; battery_state_of_charge; battery_power_avg_2_minutes;
   house_consumption_minus_pv_avg_2_minutes; total_export_import_hourly].

Definition entity_eqb (a b : Entity) : bool :=
  match a, b with
  | water_heater_switch, water_heater_switch
  | battery_state_of_charge, battery_state_of_charge
  | battery_power_avg_2_minutes, battery_power_avg_2_minutes
  | house_consumption_minus_pv_avg_2_minutes, house_consumption_minus_pv_avg_2_minutes
  | total_export_import_hourly, total_export_import_hourly => true
  | _, _ => false
  end.

(** [map_on_off]; a [None] state matches [case _]. *)
Definition map_on_off (value : option String.string) : option bool :=
  match value with
  | Some v =>
      if String.eqb v "on"%string then Some true
      else if String.eqb v "off"%string then Some false
      else None
  | None => None
  end.

Section Mapping.
(** Python's [float(s)] on a string: its value, or [None] when it raises
    [ValueError]. *)
Variable float_of_string : String.string -> option Q.

(** [map_float]; [float(None)] raises [TypeError], mapped to [None]. *)
Definition map_float (value : option String.string) : option Q :=
  match value with
  | Some v => float_of_string v
  | None => None
  end.

(** [HASS_STATE_MAPPER[e](entity, i, state)]: the [set_...] function of
    the entity overwrites its field of [i]. *)
Definition set_state (e : Entity) (i : InputState) (state : option String.string) : InputState :=
  match e with
  | water_heater_switch =>
      {| water_heater_is_on := map_on_off state; battery_soc := battery_soc i;
         battery_power_2_minutes := battery_power_2_minutes i;
         consumption_minus_pv_2_minutes := consumption_minus_pv_2_minutes i;
         exported_energy_hourly := exported_energy_hourly i |}
  | battery_state_of_charge =>
      {| water_heater_is_on := water_heater_is_on i; battery_soc := map_float state;
         battery_power_2_minutes := battery_power_2_minutes i;
         consumption_minus_pv_2_minutes := consumption_minus_pv_2_minutes i;
         exported_energy_hourly := exported_energy_hourly i |}
  | battery_power_avg_2_minutes =>
      {| water_heater_is_on := water_heater_is_on i; battery_soc := battery_soc i;
         battery_power_2_minutes := map_float state;
         consumption_minus_pv_2_minutes := consumption_minus_pv_2_minutes i;
         exported_energy_hourly := exported_energy_hourly i |}
  | house_consumption_minus_pv_avg_2_minutes =>
      {| water_heater_is_on := water_heater_is_on i; battery_soc := battery_soc i;
         battery_power_2_minutes := battery_power_2_minutes i;
         consumption_minus_pv_2_minutes := map_float state;
         exported_energy_hourly := exported_energy_hourly i |}
  | total_export_import_hourly =>
      {| water_heater_is_on := water_heater_is_on i; battery_soc := battery_soc i;
         battery_power_2_minutes := battery_power_2_minutes i;
         consumption_minus_pv_2_minutes := consumption_minus_pv_2_minutes i;
         exported_energy_hourly := map_float state |}
  end.

Definition InputState_new : InputState :=
  {| water_heater_is_on := None; battery_soc := None; battery_power_2_minutes := None;
     consumption_minus_pv_2_minutes := None; exported_energy_hourly := None |}.

(** [update_input_state]: [states e] is [hass.states.get(e).state], or
    [None] when the state machine has no state object for [e] (then the
    field is left as it is). *)
Definition update_input_state (states : Entity -> option String.string) (i : InputState) : InputState :=
  fold_left (fun i e => match states e with
                        | None => i
                        | Some st => set_state e i (Some st)
                        end) HASS_STATE_MAPPER_keys i.

(** The [InputState] built by [state_changed] for an event on [entity]
    whose new state is [new_state] ([None] when the entity was removed). *)
Definition state_changed_input (states : Entity -> option String.string) (entity : Entity)
    (new_state : option String.string) : InputState :=
  set_state entity (update_input_state states InputState_new) new_state.

(** [state_changed] followed by [ems.update_state]: the pair
    [(should_turn_on, should_turn_off)] the water heater then holds. *)
Definition state_changed (states : Entity -> option String.string) (entity : Entity)
    (new_state : option String.string) : bool * bool :=
  _update (state_changed_input states entity new_state).

(** [hass_started] after its listener registration: the pair the water
    heater holds after [ems.update_state(update_input_state(hass,
    InputState()))]. *)
Definition hass_started (states : Entity -> option String.string) : bool * bool :=
  _update (update_input_state states InputState_new).

End Mapping.

(** The state [state_changed] reads for entity [e']: the event's new state
    for the changed entity, the state machine's state for the others. *)
Definition value_at (states : Entity -> option String.string) (entity : Entity)
    (new_state : option String.string) (e' : Entity) : option String.string :=
  if entity_eqb e' entity then new_state else states e'.
End Adapter.

(** The hourly-forecast tracking of [weather_listener.py]. *)
Module Weather.

(** The exceptions raised on this path. *)
Inductive werr := WIndexError | WAssertionError | WTypeError.

Inductive wresult (A : Type) :=
| WOk (a : A)
| WErr (e : werr).
Arguments WOk {A} a.
Arguments WErr {A} e.

Section Forecasts.
(** A forecast entry (a JSON dict), Python's [==] on two entries, and the
    local date of its [ATTR_FORECAST_TIME] field,
    [as_local(datetime.fromisoformat(entry[ATTR_FORECAST_TIME])).date()],
    for entries that carry an ISO time. *)
Variable Item : Type.
Variable item_eqb : Item -> Item -> bool.
Variable forecast_day_of : Item -> Z.

(** Python's [==] on two lists. *)
Fixpoint list_eqb (a b : list Item) : bool :=
  match a, b with
  | [], [] => true
  | x :: a', y :: b' => item_eqb x y && list_eqb a' b'
  | _, _ => false
  end.

(** [l[i]] for [i >= 0]. *)
Definition py_index {A} (l : list A) (i : nat) : wresult A :=
  match nth_error l i with
  | Some x => WOk x
  | None => WErr WIndexError
  end.

(** The coordinator's [_last_hourly_forecast] and
    [_last_hourly_forecast_day]; [None] is Python [None]. *)
Record WState := {
  last_hourly_forecast : option (list Item);
  last_hourly_forecast_day : option Z
}.

(** [_save_forecast_to_file]: the two fields are set; the file write is a
    task scheduled on the loop, which does not touch them. *)
Definition _save_forecast_to_file (forecast : list Item) (forecast_day : Z) : WState :=
  {| last_hourly_forecast := Some forecast; last_hourly_forecast_day := Some forecast_day |}.

(** [_has_hourly_forecast_changed]; the comparisons of the first two times
    in the shorter-forecast branch only log, their indexing can raise. *)
Definition _has_hourly_forecast_changed (forecast : list Item) (s : WState)
    : WState * wresult bool :=
  match py_index forecast 0 with
  | WErr e => (s, WErr e)
  | WOk first =>
      let forecast_day := forecast_day_of first in
      match last_hourly_forecast s with
      | None | Some [] => (_save_forecast_to_file forecast forecast_day, WOk true)
      | Some last_hourly_forecast =>
          let len_difference :=
            (Z.of_nat (length last_hourly_forecast) - Z.of_nat (length forecast))%Z in
          match last_hourly_forecast_day s with
          | None => (s, WErr WAssertionError)
          | Some last_day =>
              if negb (forecast_day =? last_day)%Z then
                (_save_forecast_to_file forecast forecast_day, WOk true)
              else if (len_difference =? 0)%Z then
                if negb (list_eqb forecast last_hourly_forecast) then
                  (_save_forecast_to_file forecast forecast_day, WOk true)
                else (s, WOk false)
              else if (0 <? len_difference)%Z then
                let ld := Z.to_nat len_difference in
                match py_index last_hourly_forecast ld, py_index forecast 0 with
                | WErr e, _ | _, WErr e => (s, WErr e)
                | WOk _, WOk _ =>
                    match py_index last_hourly_forecast (ld + 1) with
                    | WErr e => (s, WErr e)
                    | WOk _ =>
                        match py_index forecast 1 with
                        | WErr e => (s, WErr e)
                        | WOk _ =>
                            if negb (list_eqb forecast (skipn ld last_hourly_forecast)) then
                              (_save_forecast_to_file forecast forecast_day, WOk true)
                            else (s, WOk true)
                        end
                    end
                end
              else (_save_forecast_to_file forecast forecast_day, WOk true)
          end
      end
  end.

(** The coordinator's state seen by [forecast_listener]: the tracking
    fields, [forecast_hourly], [_shutdown_requested] and the number of
    values of [_listeners] (each an [update_callback] function). *)
Record WLState := {
  wstate : WState;
  forecast_hourly : option (list Item);
  shutdown_requested : bool;
  listeners : nat
}.

Definition set_wstate (st : WLState) (w : WState) : WLState :=
  {| wstate := w; forecast_hourly := forecast_hourly st;
     shutdown_requested := shutdown_requested st; listeners := listeners st |}.

Definition set_forecast_hourly (st : WLState) (f : option (list Item)) : WLState :=
  {| wstate := wstate st; forecast_hourly := f;
     shutdown_requested := shutdown_requested st; listeners := listeners st |}.

(** [_async_update_listeners]: [for update_callback, _ in
    list(self._listeners.values())] unpacks each function object into two
    names, which raises [TypeError] on the first one. *)
Definition _async_update_listeners (st : WLState) : WLState * wresult unit :=
  match listeners st with
  | O => (st, WOk tt)
  | S _ => (st, WErr WTypeError)
  end.

(** [self.forecast_hourly != forecast]. *)
Definition forecast_neq (a b : option (list Item)) : bool :=
  match a, b with
  | None, None => false
  | Some x, Some y => negb (list_eqb x y)
  | _, _ => true
  end.

(** [forecast_listener]; [None[0]] raises [TypeError]. *)
Definition forecast_listener (forecast : option (list Item)) (st : WLState)
    : WLState * wresult unit :=
  if shutdown_requested st then (st, WOk tt) else
  match forecast with
  | None => (st, WErr WTypeError)
  | Some f =>
      let (w, r) := _has_hourly_forecast_changed f (wstate st) in
      let st1 := set_wstate st w in
      match r with
      | WErr e => (st1, WErr e)
      | WOk _ =>
          if forecast_neq (forecast_hourly st) forecast then
            _async_update_listeners (set_forecast_hourly st1 forecast)
          else (st1, WOk tt)
      end
  end.

End Forecasts.

Arguments last_hourly_forecast {Item} _.
Arguments last_hourly_forecast_day {Item} _.
Arguments wstate {Item} _.
Arguments forecast_hourly {Item} _.
Arguments shutdown_requested {Item} _.
Arguments listeners {Item} _.

End Weather.

(** ** The charge-window search *)

Section OptimizerFacts.
Import Ems.

Lemma qlt_irrefl (x : Q) : qlt x x = false.
Proof.
  unfold qlt. apply negb_false_iff, Qle_bool_iff, Qle_refl.
Qed.

Lemma scan_result_in prices L hs m b :
  scan prices L hs m b = b \/ In (scan prices L hs m b) hs.
Proof.
  revert m b; induction hs as [|h hs IH]; intros m b; simpl; [now left|].
  destruct (lt_min _ m).
  - destruct (IH (Some (mean (slice prices h (h + L)))) h) as [E|E];
      [rewrite E; auto | auto].
  - destruct (IH m b) as [E|E]; [rewrite E; auto | auto].
Qed.

Lemma scan_same_mean prices L hs m b :
  (forall h, In h hs -> mean (slice prices h (h + L)) = m) ->
  scan prices L hs (Some m) b = b.
Proof.
  revert b; induction hs as [|h hs IH]; intros b Hm; simpl; [reflexivity|].
  rewrite (Hm h (or_introl eq_refl)), qlt_irrefl.
  apply IH. intros h' Hin. apply Hm. now right.
Qed.

Lemma calculate_start_charge_hours_unfold prices L :
  calculate_start_charge_hours prices L =
  scan prices L (seq 7 9) (Some (mean (slice prices 6 (6 + L)))) 6.
Proof. reflexivity. Qed.

Lemma calculate_start_charge_hours_range prices L :
  (6 <= calculate_start_charge_hours prices L <= 15)%nat.
Proof.
  rewrite calculate_start_charge_hours_unfold.
  destruct (scan_result_in prices L (seq 7 9) (Some (mean (slice prices 6 (6 + L)))) 6)
    as [E|E]; rewrite ?E; [lia|].
  apply in_seq in E. lia.
Qed.

Lemma fold_adopt_last {A} (f : A -> bool) (l : list A) (a : A) :
  fold_left (fun b x => if f x then x else b) l a = last (a :: filter f l) a.
Proof.
  revert a; induction l as [|x l IH]; intros a; simpl; [reflexivity|].
  rewrite IH. destruct (f x); [|reflexivity].
  simpl. destruct (filter f l) as [|y r]; [reflexivity|].
  clear IH. revert y; induction r as [|z r IHr]; intros y; [reflexivity|].
  apply (IHr z).
Qed.

Lemma find_best_consecutive_hours_last prices sch :
  find_best_consecutive_hours prices sch =
  last (3%nat :: filter (fun L => adopt prices (sch 3%nat)
                     (max_list (slice prices (sch 3%nat) (sch 3%nat + 3))) (sch L))
                  [4; 5; 6; 7; 8]%nat) 3%nat.
Proof.
  unfold find_best_consecutive_hours.
  exact (fold_adopt_last (fun L => adopt prices (sch 3%nat)
           (max_list (slice prices (sch 3%nat) (sch 3%nat + 3))) (sch L))
           [4; 5; 6; 7; 8]%nat 3%nat).
Qed.

Lemma find_best_consecutive_hours_range prices sch :
  (3 <= find_best_consecutive_hours prices sch <= 8)%nat.
Proof.
  rewrite find_best_consecutive_hours_last.
  set (f := fun L => _).
  assert (Hin : forall x, In x (filter f [4; 5; 6; 7; 8]%nat) -> (4 <= x <= 8)%nat).
  { intros x Hx. apply filter_In in Hx as [Hx _]. simpl in Hx. lia. }
  destruct (filter f [4; 5; 6; 7; 8]%nat) as [|y r]; [simpl; lia|].
  change (last (3%nat :: y :: r) 3%nat) with (last (y :: r) 3%nat).
  assert (In (last (y :: r) 3%nat) (y :: r)).
  { clear Hin. revert y; induction r as [|z r IH]; intros y; [now left|].
    right. apply (IH z). }
  apply Hin in H. lia.
Qed.

Lemma slice_repeat (p : Q) (n h L : nat) :
  (h + L <= n)%nat -> slice (repeat p n) h (h + L) = repeat p L.
Proof.
  unfold slice. replace (h + L - h)%nat with L by lia.
  revert n; induction h as [|h IH]; intros n Hn; simpl.
  - revert n Hn; induction L as [|L IHL]; intros n Hn; [reflexivity|].
    destruct n as [|n]; [lia|]. simpl. f_equal. apply IHL. lia.
  - destruct n as [|n]; [lia|]. simpl. apply IH. lia.
Qed.

Lemma calculate_start_charge_hours_flat (p : Q) (L : nat) :
  (L <= 8)%nat -> calculate_start_charge_hours (repeat p 24) L = 6%nat.
Proof.
  intros HL. rewrite calculate_start_charge_hours_unfold.
  rewrite slice_repeat by lia.
  apply scan_same_mean. intros h Hh. apply in_seq in Hh.
  rewrite slice_repeat by lia. reflexivity.
Qed.


Lemma find_best_consecutive_hours_same_start prices sch h :
  (forall L, (3 <= L <= 8)%nat -> sch L = h) ->
  find_best_consecutive_hours prices sch = 8%nat.
Proof.
  intros Hs. unfold find_best_consecutive_hours, hours_to_check,
    INITIAL_BEST_CONSECUTIVE_HOURS. simpl.
  rewrite (Hs 3%nat), (Hs 8%nat) by lia.
  unfold adopt. rewrite Nat.eqb_refl. reflexivity.
Qed.

Lemma Qfloor_half_below (z : Z) : Qfloor (inject_Z z - (1 # 2)) = (z - 1)%Z.
Proof.
  unfold Qfloor, Qminus, Qplus, inject_Z. simpl.
  symmetry. apply Z.div_unique_pos with 1%Z; lia.
Qed.

End OptimizerFacts.

Section OptimizerClaims.
Import Ems Series.

(** C1 (counterexample): on the flat series of 24 zeros the optimizer does
    not return length 3, start 5.5 and end 9. *)
Lemma C1_flat_series_counterexample :
  ~ (best_consecutive_hours (find_charge_hours 0 (repeat 0%Q 24)) = 3%nat /\
     best_start_charge_hour (find_charge_hours 0 (repeat 0%Q 24)) = PyFloat (11 # 2) /\
     best_end_charge_hour (find_charge_hours 0 (repeat 0%Q 24)) = PyInt 9).
Proof. vm_compute. intros [H _]. discriminate H. Qed.

(** C1 (amended): when all 24 prices are equal every length starts at
    hour 6, each longer length is adopted because its start equals the
    3-hour start, and the plan is length 8, start 6 (an [int], no
    half-hour shift) and end 14. *)
Theorem C1_flat_series_plan (d : Z) (p : Q) :
  best_consecutive_hours (find_charge_hours d (repeat p 24)) = 8%nat /\
  best_start_charge_hour (find_charge_hours d (repeat p 24)) = PyInt 6 /\
  best_end_charge_hour (find_charge_hours d (repeat p 24)) = PyInt 14.
Proof.
  unfold best_start_charge_hour, best_end_charge_hour, find_charge_hours.
  cbn [best_consecutive_hours start_charge_hours].
  rewrite (find_best_consecutive_hours_same_start _ _ 6%nat)
    by (intros L HL; apply calculate_start_charge_hours_flat; lia).
  rewrite calculate_start_charge_hours_flat by lia.
  repeat split.
Qed.

(** C2 (counterexample): on [two_dips] ([bestStart] = 12, 6, 12, 11, 8, 7)
    the code returns length 8, while a winner hour that moves to the
    adopted start (length 4 at hour 6) rejects every later length and
    returns 4. *)
Lemma C2_fixed_reference_hour_counterexample :
  best_consecutive_hours (find_charge_hours 0 two_dips) <>
  find_best_winner_tracking two_dips (calculate_start_charge_hours two_dips).
Proof. vm_compute. discriminate. Qed.

(** C2 (amended): the winning length is the last [L] in 4..8 whose start
    [bestStart[L]] passes the test against the fixed 3-hour start
    [bestStart[3]] and the cap price of the 3-hour window computed once
    (equal to it, or earlier with a price below 100 or less than 45 above
    the cap), and 3 if none passes; the plan's start and end are taken
    from [bestStart] at the winning length. *)
Theorem C2_winner_selection (d : Z) (prices : list Q) :
  let sch := calculate_start_charge_hours prices in
  let h3 := sch 3%nat in
  let capPrice := max_list (slice prices h3 (h3 + 3)) in
  let w := best_consecutive_hours (find_charge_hours d prices) in
  w = last (3%nat :: filter (fun L =>
                        Nat.eqb (sch L) h3
                        || (Nat.ltb (sch L) h3
                            && (qlt (nth (sch L) prices 0%Q) 100
                                || qlt (nth (sch L) prices 0%Q - capPrice) 45)))
                     [4; 5; 6; 7; 8]%nat) 3%nat /\
  best_end_charge_hour (find_charge_hours d prices) =
    PyInt (Z.of_nat (sch w) + Z.of_nat w) /\
  best_start_charge_hour (find_charge_hours d prices) =
    (if Nat.eqb w 3 then PyFloat (inject_Z (Z.of_nat (sch w)) - (1 # 2))
     else PyInt (Z.of_nat (sch w))).
Proof.
  intros sch h3 capPrice w. split; [|split; reflexivity].
  exact (find_best_consecutive_hours_last prices sch).
Qed.

(** C4: whenever the winning length is 3, building the day's plan raises
    [TypeError] ([datetime.time] receives the [float] start hour), and so
    does [Ems.update_rce] for data whose today series is such a series. *)
Theorem C4_length3_plan_raises (r : RceDayPrices) :
  best_consecutive_hours (find_charge_hours (rce_day r) (rce_prices r)) = 3%nat ->
  create_for r = Err TypeError /\
  (forall hour fetched tm s,
     snd (update_rce hour (Some {| fetched_at := fetched; today := Some r; tomorrow := tm |}) s)
     = Err TypeError).
Proof.
  intros H3.
  assert (Hc : create_for r = Err TypeError).
  { unfold create_for, EmsDayData_create, best_start_charge_hour.
    rewrite H3. reflexivity. }
  split; [exact Hc|].
  intros hour fetched tm s. unfold update_rce. cbn [today]. rewrite Hc. reflexivity.
Qed.

Lemma C4_length3_plan_raises_witness :
  best_consecutive_hours (find_charge_hours 0 early_dip) = 3%nat /\
  create_for {| rce_day := 0; rce_prices := early_dip |} = Err TypeError.
Proof.
  split; [vm_compute; reflexivity|].
  refine (proj1 (C4_length3_plan_raises {| rce_day := 0; rce_prices := early_dip |} _)).
  vm_compute. reflexivity.
Defined.

(** C5 (counterexample): on [early_dip] the 3-hour window wins at hour 6,
    so the start hour is 5.5 and its floor is 5. *)
Lemma C5_start_floor_counterexample :
  ~ ((3 <= best_consecutive_hours (find_charge_hours 0 early_dip) <= 8)%nat /\
     (6 <= py_floor (best_start_charge_hour (find_charge_hours 0 early_dip)) <= 15)%Z).
Proof.
  assert (E : py_floor (best_start_charge_hour (find_charge_hours 0 early_dip)) = 5%Z)
    by (vm_compute; reflexivity).
  rewrite E. lia.
Qed.

(** C5 (amended): for every 24-entry series the window length is in
    [3,8], every [bestStart] is in [6,15], and the floor of the start hour
    is in [5,15] (5 only when length 3 starts at 6, giving 5.5). *)
Theorem C5_plan_bounds (d : Z) (prices : list Q) :
  length prices = 24%nat ->
  (3 <= best_consecutive_hours (find_charge_hours d prices) <= 8)%nat /\
  (forall L, (6 <= start_charge_hours (find_charge_hours d prices) L <= 15)%nat) /\
  (5 <= py_floor (best_start_charge_hour (find_charge_hours d prices)) <= 15)%Z.
Proof.
  intros _.
  pose proof (find_best_consecutive_hours_range prices (calculate_start_charge_hours prices)) as Hw.
  split; [exact Hw|]. split; [intros L; apply calculate_start_charge_hours_range|].
  unfold best_start_charge_hour, find_charge_hours. cbn [best_consecutive_hours start_charge_hours].
  set (w := find_best_consecutive_hours prices (calculate_start_charge_hours prices)).
  pose proof (calculate_start_charge_hours_range prices w) as Hs.
  destruct (Nat.eqb w INITIAL_BEST_CONSECUTIVE_HOURS); cbn [py_floor].
  - rewrite Qfloor_half_below. lia.
  - lia.
Qed.

Lemma C5_plan_bounds_witness :
  length early_dip = 24%nat /\
  (5 <= py_floor (best_start_charge_hour (find_charge_hours 0 early_dip)) <= 15)%Z.
Proof.
  split; [reflexivity|].
  apply (C5_plan_bounds 0 early_dip). reflexivity.
Defined.

End OptimizerClaims.

(** ** The water-heater rules *)

Section HeaterFacts.
Import Ems.

Lemma qlt_spec (x y : Q) : qlt x y = true <-> (x < y)%Q.
Proof.
  unfold qlt. rewrite negb_true_iff. split.
  - intros H. apply Qnot_le_lt. intros Hle. apply Qle_bool_iff in Hle. congruence.
  - intros H. destruct (Qle_bool y x) eqn:E; [|reflexivity].
    apply Qle_bool_iff in E. exfalso. apply (Qlt_not_le x y); assumption.
Qed.

Lemma qle_spec (x y : Q) : qle x y = true <-> (x <= y)%Q.
Proof. apply Qle_bool_iff. Qed.

Lemma qeq_spec (x y : Q) : qeq x y = true <-> (x == y)%Q.
Proof. apply Qeq_bool_iff. Qed.

Lemma qlt_false (x y : Q) : ~ (x < y)%Q -> qlt x y = false.
Proof. intros H. destruct (qlt x y) eqn:E; [apply qlt_spec in E; contradiction|reflexivity]. Qed.

Lemma qle_false (x y : Q) : ~ (x <= y)%Q -> qle x y = false.
Proof. intros H. destruct (qle x y) eqn:E; [apply qle_spec in E; contradiction|reflexivity]. Qed.

Lemma qeq_false (x y : Q) : ~ (x == y)%Q -> qeq x y = false.
Proof. intros H. destruct (qeq x y) eqn:E; [apply qeq_spec in E; contradiction|reflexivity]. Qed.

(** [_update] on a snapshot whose five signals are all present. *)
Lemma _update_present on soc bp cmp exp :
  _update {| water_heater_is_on := Some on; battery_soc := Some soc;
             battery_power_2_minutes := Some bp;
             consumption_minus_pv_2_minutes := Some cmp;
             exported_energy_hourly := Some exp |} =
  overrides on soc (- cmp) (exp * 1000) (tiers soc (- cmp) (- bp)).
Proof. reflexivity. Qed.

End HeaterFacts.

(** The snapshot with all five signals present. *)
Definition snapshot (on : bool) (soc bp cmp exp : Q) : Ems.InputState :=
  {| Ems.water_heater_is_on := Some on; Ems.battery_soc := Some soc;
     Ems.battery_power_2_minutes := Some bp;
     Ems.consumption_minus_pv_2_minutes := Some cmp;
     Ems.exported_energy_hourly := Some exp |}.

Section HeaterClaims.
Import Ems.

(** C6 (counterexample): soc 95, pvAvailable 3100 (consumption minus PV
    -3100), batteryPower 50 (battery average -50), no export: the 90-96
    tier gives turnOff = (50 < 100), which is true. *)
Lemma C6_tier_90_96_counterexample :
  _update (snapshot false 95 (-50) (-3100) 0) <> (true, false).
Proof. vm_compute. discriminate. Qed.

(** C6 (amended): for that snapshot, with the heater relay in either
    state, the controller returns turnOn = true and turnOff = true. *)
Theorem C6_tier_90_96_example (on : bool) :
  _update (snapshot on 95 (-50) (-3100) 0) = (true, true).
Proof. destruct on; vm_compute; reflexivity. Qed.

(** C7 (counterexample): a negative soc falls into the [<= 89] tier:
    soc -5 with pvAvailable 4000 and batteryPower 0 gives (true, true). *)
Lemma C7_negative_soc_counterexample :
  _update (snapshot false (-5) 0 (-4000) 0) <> (false, false).
Proof. vm_compute. discriminate. Qed.

(** C7 (amended): with all signals present, a soc below 0 uses the
    [<= 89] tier (turnOn iff pvAvailable > 3700, turnOff iff
    batteryPower < 900) and no override; a soc above 96 that is none of
    97, 98, 99, 100 (above 100, or a non-integer in (96, 100)) makes the
    tier evaluation give (false, false), after which the overrides for
    soc >= 90 still apply. *)
Theorem C7_unmapped_soc (on : bool) (soc bp cmp exp : Q) :
  ((soc < 0)%Q ->
   _update (snapshot on soc bp cmp exp) = (qlt 3700 (- cmp), qlt (- bp) 900)) /\
  ((96 < soc)%Q -> ~ (soc == 97)%Q -> ~ (soc == 98)%Q -> ~ (soc == 99)%Q ->
   ~ (soc == 100)%Q ->
   tiers soc (- cmp) (- bp) = (false, false) /\
   _update (snapshot on soc bp cmp exp) = overrides on soc (- cmp) (exp * 1000) (false, false)).
Proof.
  unfold snapshot. rewrite _update_present. split.
  - intros Hneg. unfold tiers.
    rewrite (proj2 (qle_spec soc 89)) by lra.
    unfold overrides. rewrite (qle_false 90 soc) by lra.
    reflexivity.
  - intros Hgt H97 H98 H99 H100.
    assert (Ht : tiers soc (- cmp) (- bp) = (false, false)).
    { unfold tiers.
      rewrite (qle_false soc 89), (qle_false soc 96) by lra.
      rewrite (qeq_false _ _ H97), (qeq_false _ _ H98), (qeq_false _ _ H99), (qeq_false _ _ H100).
      reflexivity. }
    split; [exact Ht|]. rewrite Ht. reflexivity.
Qed.

Lemma C7_unmapped_soc_witness :
  (-5 < 0)%Q /\
  _update (snapshot false (-5) 0 (-4000) 0) = (qlt 3700 4000, qlt 0 900).
Proof.
  split; [reflexivity|].
  refine (proj1 (C7_unmapped_soc false (-5) 0 (-4000) 0) _).
  reflexivity.
Defined.

(** C8: if any of the five signals is absent the controller returns
    (false, false), whatever the other signals are. *)
Theorem C8_absent_signal_neutral (st : InputState) :
  (water_heater_is_on st = None \/ battery_soc st = None \/
   battery_power_2_minutes st = None \/ consumption_minus_pv_2_minutes st = None \/
   exported_energy_hourly st = None) ->
  _update st = (false, false).
Proof.
  intros Habs. unfold _update.
  replace (_none_present st) with true; [reflexivity|].
  unfold _none_present.
  destruct st as [w s b c e]; cbn in *.
  destruct Habs as [H|[H|[H|[H|H]]]]; rewrite H;
    destruct w, s, b, c, e; reflexivity.
Qed.

Lemma C8_absent_signal_neutral_witness :
  _update {| water_heater_is_on := Some true; battery_soc := None;
             battery_power_2_minutes := Some (-2000)%Q;
             consumption_minus_pv_2_minutes := Some (-9000)%Q;
             exported_energy_hourly := Some 1%Q |} = (false, false).
Proof.
  apply C8_absent_signal_neutral. cbn. right. left. reflexivity.
Defined.

(** C9: with all signals present and soc >= 90, an export above 300 Wh
    with pvAvailable > 0 forces (true, false); otherwise an export above
    80 Wh with the relay on forces turnOff = false and keeps the tier's
    turnOn; below soc 90 the tier outputs are returned unchanged. *)
Theorem C9_overrides (on : bool) (soc bp cmp exp : Q) :
  ((90 <= soc)%Q -> (300 < exp * 1000)%Q -> (0 < - cmp)%Q ->
   _update (snapshot on soc bp cmp exp) = (true, false)) /\
  ((90 <= soc)%Q -> ~ ((300 < exp * 1000)%Q /\ (0 < - cmp)%Q) ->
   (80 < exp * 1000)%Q -> on = true ->
   _update (snapshot on soc bp cmp exp) = (fst (tiers soc (- cmp) (- bp)), false)) /\
  ((soc < 90)%Q ->
   _update (snapshot on soc bp cmp exp) = tiers soc (- cmp) (- bp)).
Proof.
  unfold snapshot. rewrite _update_present. unfold overrides.
  destruct (tiers soc (- cmp) (- bp)) as [ton toff]. cbn [fst].
  split; [|split].
  - intros Hs He Hp.
    rewrite (proj2 (qle_spec _ _) Hs), (proj2 (qlt_spec _ _) He), (proj2 (qlt_spec _ _) Hp).
    cbn. destruct (qlt 80 (exp * 1000) && on); reflexivity.
  - intros Hs Hnot He Hon. subst on.
    rewrite (proj2 (qle_spec _ _) Hs), (proj2 (qlt_spec 80 _) He).
    destruct (qlt 300 (exp * 1000)) eqn:E1, (qlt 0 (- cmp)) eqn:E2; try reflexivity.
    exfalso. apply Hnot. split; apply qlt_spec; assumption.
  - intros Hs. rewrite (qle_false 90 soc) by lra. reflexivity.
Qed.

Lemma C9_overrides_witness :
  _update (snapshot false 95 0 (-10) (35 # 100)) = (true, false).
Proof.
  refine (proj1 (C9_overrides false 95 0 (-10) (35 # 100)) _ _ _);
    unfold Qle, Qlt; simpl; lia.
Defined.

End HeaterClaims.

(** ** The refresh policy *)

Section RefreshFacts.
Import Ems Coordinator.

(** A full refresh fetches today, then tomorrow; a failed fetch is the last
    one issued and the result is [UpdateFailed]. *)
Lemma _full_update_failed api now d :
  In d (fst (_full_update api now [])) -> api d = FetchFailed ->
  snd (_full_update api now []) = Err UpdateFailed.
Proof.
  unfold _full_update, bind, _fetch_prices_for_day, ret. cbn.
  destruct (api now) eqn:E1; cbn.
  - destruct (api (now + DAY)) eqn:E2; cbn; [|reflexivity].
    intros [<-|[<-|[]]] Hd; congruence.
  - reflexivity.
Qed.

Lemma _async_update_data_failed api now data d :
  In d (fst (_async_update_data api now data [])) -> api d = FetchFailed ->
  snd (_async_update_data api now data []) = Err UpdateFailed.
Proof.
  unfold _async_update_data.
  destruct data as [dd|]; [|apply _full_update_failed].
  destruct (today dd) as [t|]; [|apply _full_update_failed].
  destruct (negb (date_of (fetched_at dd) =? date_of now)); [apply _full_update_failed|].
  destruct (tomorrow dd); [cbn; intros []|].
  destruct (RCE_TOMORROW_PUBLICATION_HOUR <=? hour_of now); cbn; intros [].
Qed.

End RefreshFacts.

Section RefreshClaims.
Import Ems Coordinator.

(** Fifteen o'clock on day 20000, and twenty minutes earlier. *)
Definition now_15h : Z := 20000 * 86400 + 15 * 3600.
Definition fetched_20min_before : Z := now_15h - 20 * 60.
Definition today_prices : RceDayPrices := {| rce_day := 20000; rce_prices := repeat 0%Q 24 |}.

(** C3: with today's prices fetched the same day, no tomorrow prices and
    [now.hour >= 14], [_async_update_data] raises [TypeError] before any
    fetch, whatever the elapsed time: [(now - fetched_at).total_seconds]
    is the bound method, not its value, and [>] between it and an [int]
    raises.  The coordinator keeps its data and reports a failed update,
    so tomorrow's prices are never fetched on that day. *)
Theorem C3_partial_refresh_raises (api : Z -> fetch_outcome) (now : Z) (d : RceData)
    (t : RceDayPrices) (success : bool) (ex : option exn) :
  today d = Some t -> tomorrow d = None ->
  date_of (fetched_at d) = date_of now ->
  (RCE_TOMORROW_PUBLICATION_HOUR <= hour_of now)%Z ->
  _async_update_data api now (Some d) [] = ([], Err TypeError) /\
  async_refresh api now {| data := Some d; last_update_success := success; last_exception := ex |} =
    ({| data := Some d; last_update_success := false; last_exception := Some TypeError |}, []).
Proof.
  intros Ht Htm Hdate Hhour.
  assert (H : _async_update_data api now (Some d) [] = ([], Err TypeError)).
  { unfold _async_update_data. rewrite Ht, Htm, Hdate, Z.eqb_refl.
    cbn [negb]. rewrite (proj2 (Z.leb_le _ _) Hhour). reflexivity. }
  split; [exact H|]. unfold async_refresh. cbn [data]. rewrite H. reflexivity.
Qed.

Lemma C3_partial_refresh_raises_witness :
  hour_of now_15h = 15%Z /\ (now_15h - fetched_20min_before = 1200)%Z /\
  async_refresh (fun _ => Fetched (Some today_prices)) now_15h
    {| data := Some {| fetched_at := fetched_20min_before; today := Some today_prices;
                       tomorrow := None |};
       last_update_success := true; last_exception := None |} =
  ({| data := Some {| fetched_at := fetched_20min_before; today := Some today_prices;
                      tomorrow := None |};
      last_update_success := false; last_exception := Some TypeError |}, []).
Proof.
  split; [vm_compute; reflexivity|]. split; [vm_compute; reflexivity|].
  refine (proj2 (C3_partial_refresh_raises _ now_15h _ today_prices true None _ _ _ _));
    vm_compute; try reflexivity; discriminate.
Defined.

(** C10: if a fetch issued by a refresh fails, the refresh ends in
    [UpdateFailed], which the coordinator records as a failed update while
    its previous data stays as it was. *)
Theorem C10_fetch_failure_keeps_data (api : Z -> fetch_outcome) (now : Z) (st : CoordState) (d : Z) :
  In d (snd (async_refresh api now st)) -> api d = FetchFailed ->
  fst (async_refresh api now st) =
    {| data := data st; last_update_success := false; last_exception := Some UpdateFailed |}.
Proof.
  intros Hin Hd. unfold async_refresh in *.
  pose proof (_async_update_data_failed api now (data st) d) as Hf.
  destruct (_async_update_data api now (data st) []) as [log r]. cbn in *.
  destruct r as [a|e]; cbn in *.
  - specialize (Hf Hin Hd). discriminate Hf.
  - specialize (Hf Hin Hd). injection Hf as ->. reflexivity.
Qed.

Lemma C10_fetch_failure_keeps_data_witness :
  fst (async_refresh (fun _ => FetchFailed) now_15h
         {| data := None; last_update_success := true; last_exception := None |}) =
  {| data := None; last_update_success := false; last_exception := Some UpdateFailed |}.
Proof.
  exact (C10_fetch_failure_keeps_data (fun _ => FetchFailed) now_15h
           {| data := None; last_update_success := true; last_exception := None |} now_15h
           (or_introl eq_refl) eq_refl).
Defined.

End RefreshClaims.

(** ** Further properties of the charge-window search and its sensors *)

Section ExtraOptimizer.
Import Ems Sensors.

Lemma scan_spec (prices : list Q) (L : nat) :
  forall n a b m,
  (b < a)%nat -> (m == mean (slice prices b (b + L)))%Q ->
  let f h := mean (slice prices h (h + L)) in
  let r := scan prices L (seq a n) (Some m) b in
  (r = b \/ (a <= r < a + n)%nat) /\ (f r <= m)%Q /\
  (forall h, (a <= h < a + n)%nat -> (f r <= f h)%Q) /\
  (forall h, (a <= h < a + n)%nat -> (h < r)%nat -> (f r < f h)%Q) /\
  (r <> b -> (f r < m)%Q).
Proof.
  induction n as [|n IH]; intros a b m Hba Hm f r.
  - subst r f. cbn [seq scan]. split; [now left|].
    split; [rewrite Hm; apply Qle_refl|].
    split; [intros; lia|]. split; [intros; lia|].
    intros H; contradiction.
  - subst r. cbn [seq scan lt_min].
    destruct (qlt (mean (slice prices a (a + L))) m) eqn:E.
    + apply qlt_spec in E.
      destruct (IH (S a) a (mean (slice prices a (a + L))) ltac:(lia) (Qeq_refl _))
        as (Hr & Hle & Hall & Hlt & Hne).
      set (r := scan prices L (seq (S a) n) (Some (mean (slice prices a (a + L)))) a) in *.
      subst f; cbv beta in *.
      split; [destruct Hr; lia|].
      split; [apply Qlt_le_weak; eapply Qle_lt_trans; [exact Hle|exact E]|].
      split.
      * intros h Hh. destruct (Nat.eq_dec h a) as [->|Hne']; [exact Hle|].
        apply Hall. lia.
      * split.
        -- intros h Hh Hhr. destruct (Nat.eq_dec h a) as [->|Hne'].
           ++ apply Hne. lia.
           ++ apply Hlt; lia.
        -- intros _. eapply Qle_lt_trans; [exact Hle|exact E].
    + assert (E' : (m <= mean (slice prices a (a + L)))%Q).
      { apply Qnot_lt_le. intros H. apply qlt_spec in H. congruence. }
      destruct (IH (S a) b m ltac:(lia) Hm) as (Hr & Hle & Hall & Hlt & Hne).
      set (r := scan prices L (seq (S a) n) (Some m) b) in *.
      subst f; cbv beta in *.
      split; [destruct Hr; lia|].
      split; [exact Hle|].
      split.
      * intros h Hh. destruct (Nat.eq_dec h a) as [->|Hne'].
        -- eapply Qle_trans; [exact Hle|exact E'].
        -- apply Hall. lia.
      * split; [|exact Hne].
        intros h Hh Hhr. destruct (Nat.eq_dec h a) as [->|Hne'].
        -- eapply Qlt_le_trans; [apply Hne; lia|exact E'].
        -- apply Hlt; lia.
Qed.

(** X1: for a series of at least 16 prices (shorter ones make
    [statistics.mean] raise on an empty slice) and a window length in
    3..8, the start hour recorded by [calculate_start_charge_hours] lies
    in 6..15, its window has the
    smallest mean among the starts 6..15, and every earlier start has a
    strictly larger mean (the first minimum wins ties). *)
Theorem X1_start_hour_is_first_minimum (prices : list Q) (L : nat)
    (Hlen : (16 <= length prices)%nat) (HL : (3 <= L <= 8)%nat) :
  let f h := mean (slice prices h (h + L)) in
  let r := calculate_start_charge_hours prices L in
  (6 <= r <= 15)%nat /\
  (forall h, (6 <= h <= 15)%nat -> (f r <= f h)%Q) /\
  (forall h, (6 <= h < r)%nat -> (f r < f h)%Q).
Proof.
  intros f r. subst r. rewrite calculate_start_charge_hours_unfold.
  destruct (scan_spec prices L 9 7 6 (mean (slice prices 6 (6 + L))) ltac:(lia) (Qeq_refl _))
    as (Hr & Hle & Hall & Hlt & Hne).
  set (r := scan prices L (seq 7 9) (Some (mean (slice prices 6 (6 + L)))) 6) in *.
  subst f; cbv beta in *.
  split; [destruct Hr; lia|]. split.
  - intros h Hh. destruct (Nat.eq_dec h 6) as [->|H6]; [exact Hle|]. apply Hall. lia.
  - intros h Hh. destruct (Nat.eq_dec h 6) as [->|H6].
    + apply Hne. lia.
    + apply Hlt; lia.
Qed.

Lemma X1_start_hour_is_first_minimum_witness :
  (6 <= calculate_start_charge_hours Series.two_dips 3 <= 15)%nat.
Proof.
  refine (proj1 (X1_start_hour_is_first_minimum Series.two_dips 3 _ _)).
  - apply Nat.leb_le. vm_compute. reflexivity.
  - lia.
Defined.

End ExtraOptimizer.

Section ExtraPlan.
Import Ems Sensors.

Lemma last_filter_cases {A} (f : A -> bool) (x : A) (l : list A) :
  last (x :: filter f l) x = x \/
  (In (last (x :: filter f l) x) l /\ f (last (x :: filter f l) x) = true).
Proof.
  destruct (filter f l) as [|y r] eqn:E; [now left|]. right.
  change (last (x :: y :: r) x) with (last (y :: r) x).
  assert (Hin : In (last (y :: r) x) (y :: r)).
  { clear E. revert y; induction r as [|z r IH]; intros y; [now left|].
    right. apply (IH z). }
  assert (Hin' : In (last (y :: r) x) (filter f l)) by (rewrite E; exact Hin).
  apply filter_In in Hin'. exact Hin'.
Qed.

(** X2: for a series of at least 16 prices, the chosen window never
    starts later than the best 3-hour window:
    [bestStart[winner] <= bestStart[3]]. *)
Theorem X2_winner_starts_no_later (d : Z) (prices : list Q)
    (Hlen : (16 <= length prices)%nat) :
  let sch := calculate_start_charge_hours prices in
  (sch (best_consecutive_hours (find_charge_hours d prices)) <= sch 3%nat)%nat.
Proof.
  intros sch.
  assert (Hw : best_consecutive_hours (find_charge_hours d prices) =
               find_best_consecutive_hours prices sch) by reflexivity.
  rewrite Hw, find_best_consecutive_hours_last.
  destruct (last_filter_cases
              (fun L => adopt prices (sch 3%nat)
                          (max_list (slice prices (sch 3%nat) (sch 3%nat + 3))) (sch L))
              3%nat [4; 5; 6; 7; 8]%nat) as [E|[_ Ha]].
  - rewrite E. lia.
  - revert Ha. generalize (last (3%nat :: filter (fun L => adopt prices (sch 3%nat)
                          (max_list (slice prices (sch 3%nat) (sch 3%nat + 3))) (sch L))
                          [4; 5; 6; 7; 8]%nat) 3%nat).
    intros r Ha. unfold adopt in Ha.
    apply orb_true_iff in Ha as [Ha|Ha].
    + apply Nat.eqb_eq in Ha. lia.
    + apply andb_true_iff in Ha as [Ha _]. apply Nat.ltb_lt in Ha. lia.
Qed.

Lemma X2_winner_starts_no_later_witness :
  (calculate_start_charge_hours Series.two_dips
     (best_consecutive_hours (find_charge_hours 0 Series.two_dips))
   <= calculate_start_charge_hours Series.two_dips 3)%nat.
Proof.
  apply (X2_winner_starts_no_later 0 Series.two_dips).
  apply Nat.leb_le. vm_compute. reflexivity.
Defined.

Lemma Zmod_times60 (z : Z) : (z * 60) mod 60 = 0.
Proof. apply Z.mod_mul. lia. Qed.

Lemma EmsDayData_create_not_length3 (d : Z) (prices : list Q) :
  let p := find_charge_hours d prices in
  let w := best_consecutive_hours p in
  let s := Z.of_nat (calculate_start_charge_hours prices w) in
  w <> 3%nat ->
  (s + Z.of_nat w <= 23)%Z /\
  EmsDayData_create p =
    Ok {| dd_hour_price := Some prices;
          dd_start_charge_hour := Some (PyInt s);
          dd_start_charge_hour_datetime :=
            Some {| dt_day := d; dt_hour := s; dt_minute := 0; dt_second := 0 |};
          dd_end_charge_hour := Some (PyInt (s + Z.of_nat w));
          dd_end_charge_hour_datetime :=
            Some {| dt_day := d; dt_hour := s + Z.of_nat w; dt_minute := 0; dt_second := 0 |} |}.
Proof.
  intros p w s Hw.
  pose proof (calculate_start_charge_hours_range prices w) as Hs.
  pose proof (find_best_consecutive_hours_range prices (calculate_start_charge_hours prices)) as Hr.
  change (find_best_consecutive_hours prices (calculate_start_charge_hours prices)) with w in Hr.
  split; [lia|].
  unfold EmsDayData_create, best_start_charge_hour, best_end_charge_hour,
    hour_to_timestamp, time, minute_of.
  change (start_charge_hours p) with (calculate_start_charge_hours prices).
  change (best_consecutive_hours p) with w. fold s.
  rewrite (proj2 (Nat.eqb_neq w INITIAL_BEST_CONSECUTIVE_HOURS) Hw).
  rewrite !Zmod_times60.
  replace ((0 <=? s) && (s <=? 23) && (0 <=? 0) && (0 <=? 59) && (0 <=? 0) && (0 <=? 59))%Z
    with true by (symmetry; rewrite !andb_true_iff, !Z.leb_le; lia).
  replace ((0 <=? s + Z.of_nat w) && (s + Z.of_nat w <=? 23) && (0 <=? 0) && (0 <=? 59)
           && (0 <=? 0) && (0 <=? 59))%Z
    with true by (symmetry; rewrite !andb_true_iff, !Z.leb_le; lia).
  reflexivity.
Qed.

(** X3: for a series of at least 16 prices whose winning length is not
    3, [EmsDayData.create] succeeds:
    the start is the [int] hour [bestStart[w]] at minute 0 and the end the
    hour [bestStart[w] + w] (at most 23) at minute 0, on the plan's day. *)
Theorem X3_plan_created_when_not_length3 (d : Z) (prices : list Q)
    (Hlen : (16 <= length prices)%nat) :
  let p := find_charge_hours d prices in
  let w := best_consecutive_hours p in
  let s := Z.of_nat (calculate_start_charge_hours prices w) in
  w <> 3%nat ->
  (s + Z.of_nat w <= 23)%Z /\
  EmsDayData_create p =
    Ok {| dd_hour_price := Some prices;
          dd_start_charge_hour := Some (PyInt s);
          dd_start_charge_hour_datetime :=
            Some {| dt_day := d; dt_hour := s; dt_minute := 0; dt_second := 0 |};
          dd_end_charge_hour := Some (PyInt (s + Z.of_nat w));
          dd_end_charge_hour_datetime :=
            Some {| dt_day := d; dt_hour := s + Z.of_nat w; dt_minute := 0; dt_second := 0 |} |}.
Proof. exact (EmsDayData_create_not_length3 d prices). Qed.

Lemma X3_plan_created_when_not_length3_witness :
  best_consecutive_hours (find_charge_hours 0 Series.two_dips) <> 3%nat /\
  EmsDayData_create (find_charge_hours 0 Series.two_dips) =
    Ok {| dd_hour_price := Some Series.two_dips;
          dd_start_charge_hour := Some (PyInt 7);
          dd_start_charge_hour_datetime :=
            Some {| dt_day := 0; dt_hour := 7; dt_minute := 0; dt_second := 0 |};
          dd_end_charge_hour := Some (PyInt 15);
          dd_end_charge_hour_datetime :=
            Some {| dt_day := 0; dt_hour := 15; dt_minute := 0; dt_second := 0 |} |}.
Proof.
  split; [vm_compute; discriminate|].
  refine (proj2 (X3_plan_created_when_not_length3 0 Series.two_dips _ _)).
  - apply Nat.leb_le. vm_compute. reflexivity.
  - vm_compute. discriminate.
Defined.

Lemma start_time_half_hour (now_day : Z) (n : nat) :
  (6 <= n <= 15)%nat ->
  let x := PyFloat (inject_Z (Z.of_nat n) - (1 # 2))%Q in
  datetime_replace now_day (py_int x) (py_int (times60_mod60 x)) =
    Ok {| dt_day := now_day; dt_hour := Z.of_nat n - 1; dt_minute := 30; dt_second := 0 |}.
Proof.
  intros Hn x. subst x.
  assert (n = 6 \/ n = 7 \/ n = 8 \/ n = 9 \/ n = 10 \/ n = 11 \/ n = 12 \/ n = 13
          \/ n = 14 \/ n = 15)%nat as Hc by lia.
  repeat destruct Hc as [->|Hc]; try (subst n); vm_compute; reflexivity.
Qed.

(** X4: for a series of at least 16 prices, the start-time sensor turns
    the plan's start into a time of day without error: hour [bestStart[3] - 1] and minute 30 when the winning
    length is 3 (the half-hour shift), hour [bestStart[w]] and minute 0
    otherwise. *)
Theorem X4_start_time_sensor (now_day d : Z) (prices : list Q)
    (Hlen : (16 <= length prices)%nat) :
  let p := find_charge_hours d prices in
  let w := best_consecutive_hours p in
  let s := Z.of_nat (calculate_start_charge_hours prices w) in
  start_charge_hour_time now_day p =
    if Nat.eqb w 3 then
      Ok {| dt_day := now_day; dt_hour := s - 1; dt_minute := 30; dt_second := 0 |}
    else Ok {| dt_day := now_day; dt_hour := s; dt_minute := 0; dt_second := 0 |}.
Proof.
  intros p w s.
  pose proof (calculate_start_charge_hours_range prices w) as Hs.
  unfold start_charge_hour_time, best_start_charge_hour.
  change (start_charge_hours p) with (calculate_start_charge_hours prices).
  change (best_consecutive_hours p) with w. fold s.
  change INITIAL_BEST_CONSECUTIVE_HOURS with 3%nat.
  destruct (Nat.eqb w 3).
  - apply start_time_half_hour. exact Hs.
  - cbn [py_int times60_mod60]. rewrite Zmod_times60. unfold datetime_replace.
    replace ((0 <=? s) && (s <=? 23) && (0 <=? 0) && (0 <=? 59))%Z
      with true by (symmetry; rewrite !andb_true_iff, !Z.leb_le; lia).
    reflexivity.
Qed.

Lemma X4_start_time_sensor_witness :
  start_charge_hour_time 0 (find_charge_hours 0 Series.two_dips) =
    Ok {| dt_day := 0; dt_hour := 7; dt_minute := 0; dt_second := 0 |}.
Proof.
  refine (eq_trans (X4_start_time_sensor 0 0 Series.two_dips _) _).
  - apply Nat.leb_le. vm_compute. reflexivity.
  - vm_compute. reflexivity.
Defined.

End ExtraPlan.

Section ExtraEms.
Import Ems.

(** X5: when today's series has at least 16 prices and winning length 3, [Ems.update_rce] raises
    [TypeError] after it has already stored the new [rce_data]: today's
    and tomorrow's plans and the current price keep their old values, so
    the stored data and the plans disagree. *)
Theorem X5_update_rce_partial_state (hour : nat) (fetched : Z) (r : RceDayPrices)
    (tm : option RceDayPrices) (s : EmsState)
    (Hlen : (16 <= length (rce_prices r))%nat) :
  best_consecutive_hours (find_charge_hours (rce_day r) (rce_prices r)) = 3%nat ->
  update_rce hour (Some {| fetched_at := fetched; today := Some r; tomorrow := tm |}) s =
    ({| ems_today := ems_today s; ems_tomorrow := ems_tomorrow s;
        ems_rce_data := Some {| fetched_at := fetched; today := Some r; tomorrow := tm |};
        ems_current_price := ems_current_price s |}, Err TypeError).
Proof.
  intros H3.
  assert (Hc : create_for r = Err TypeError).
  { unfold create_for, EmsDayData_create, best_start_charge_hour. rewrite H3. reflexivity. }
  unfold update_rce. cbn [today]. rewrite Hc. reflexivity.
Qed.

Lemma X5_update_rce_partial_state_witness :
  update_rce 10 (Some {| fetched_at := 0; today := Some {| rce_day := 0; rce_prices := Series.early_dip |};
                         tomorrow := None |})
    {| ems_today := EmsDayData_empty; ems_tomorrow := EmsDayData_empty;
       ems_rce_data := None; ems_current_price := None |} =
  ({| ems_today := EmsDayData_empty; ems_tomorrow := EmsDayData_empty;
      ems_rce_data := Some {| fetched_at := 0;
                              today := Some {| rce_day := 0; rce_prices := Series.early_dip |};
                              tomorrow := None |};
      ems_current_price := None |}, Err TypeError).
Proof.
  apply X5_update_rce_partial_state.
  - apply Nat.leb_le. vm_compute. reflexivity.
  - vm_compute. reflexivity.
Defined.



(** X23: when today's series (at least 16 prices) has a winning length
    other than 3 and tomorrow's series has winning length 3,
    [Ems.update_rce] raises [TypeError] after it has stored the new data
    and today's new plan: tomorrow's plan and the current price keep their
    old values. *)
Theorem X23_update_rce_tomorrow_length3 (hour : nat) (fetched : Z) (r rt : RceDayPrices)
    (s : EmsState) (Hlen : (16 <= length (rce_prices r))%nat)
    (Hlent : (16 <= length (rce_prices rt))%nat) :
  best_consecutive_hours (find_charge_hours (rce_day r) (rce_prices r)) <> 3%nat ->
  best_consecutive_hours (find_charge_hours (rce_day rt) (rce_prices rt)) = 3%nat ->
  exists dd,
    create_for r = Ok dd /\
    update_rce hour (Some {| fetched_at := fetched; today := Some r; tomorrow := Some rt |}) s =
      ({| ems_today := dd; ems_tomorrow := ems_tomorrow s;
          ems_rce_data := Some {| fetched_at := fetched; today := Some r; tomorrow := Some rt |};
          ems_current_price := ems_current_price s |}, Err TypeError).
Proof.
  intros Hw H3.
  destruct (EmsDayData_create_not_length3 (rce_day r) (rce_prices r) Hw) as [_ Hc].
  assert (Hct : create_for rt = Err TypeError).
  { unfold create_for, EmsDayData_create, best_start_charge_hour. rewrite H3. reflexivity. }
  eexists. split; [exact Hc|].
  unfold update_rce. cbn [today tomorrow]. rewrite Hct. unfold create_for. rewrite Hc.
  reflexivity.
Qed.

Lemma X23_update_rce_tomorrow_length3_witness :
  exists dd,
    create_for {| rce_day := 0; rce_prices := Series.two_dips |} = Ok dd /\
    update_rce 12 (Some {| fetched_at := 0;
                           today := Some {| rce_day := 0; rce_prices := Series.two_dips |};
                           tomorrow := Some {| rce_day := 1; rce_prices := Series.early_dip |} |})
      {| ems_today := EmsDayData_empty; ems_tomorrow := EmsDayData_empty;
         ems_rce_data := None; ems_current_price := None |} =
      ({| ems_today := dd; ems_tomorrow := EmsDayData_empty;
          ems_rce_data := Some {| fetched_at := 0;
                                  today := Some {| rce_day := 0; rce_prices := Series.two_dips |};
                                  tomorrow := Some {| rce_day := 1;
                                                      rce_prices := Series.early_dip |} |};
          ems_current_price := None |}, Err TypeError).
Proof.
  apply X23_update_rce_tomorrow_length3.
  - apply Nat.leb_le. vm_compute. reflexivity.
  - apply Nat.leb_le. vm_compute. reflexivity.
  - vm_compute. discriminate.
  - vm_compute. reflexivity.
Defined.

End ExtraEms.

Section ExtraHeater.
Import Ems.

Lemma qlt_mono_r (a x y : Q) : (x <= y)%Q -> qlt a x = true -> qlt a y = true.
Proof.
  intros Hxy H. apply qlt_spec in H. apply qlt_spec. eapply Qlt_le_trans; eassumption.
Qed.

Lemma qlt_mono_l (a x y : Q) : (y <= x)%Q -> qlt x a = true -> qlt y a = true.
Proof.
  intros Hxy H. apply qlt_spec in H. apply qlt_spec. eapply Qle_lt_trans; eassumption.
Qed.

(** X7: more PV surplus never withdraws a turn-on: with the other signals
    fixed, if turnOn holds for a consumption-minus-PV average [cmp], it
    holds for every smaller average [cmp'] (a larger pvAvailable). *)
Theorem X7_turn_on_monotone_in_pv (on : bool) (soc bp cmp cmp' exp : Q) :
  (cmp' <= cmp)%Q ->
  fst (_update (snapshot on soc bp cmp exp)) = true ->
  fst (_update (snapshot on soc bp cmp' exp)) = true.
Proof.
  intros Hc. assert (Hpv : (- cmp <= - cmp')%Q) by lra.
  unfold snapshot. rewrite !_update_present. unfold overrides, tiers.
  destruct (qle soc 89), (qle soc 96), (qeq soc 97 || qeq soc 98), (qeq soc 99),
    (qeq soc 100), (qle 90 soc), (qlt 300 (exp * 1000)), (qlt 80 (exp * 1000)), on;
    cbn [andb orb fst];
  repeat match goal with
  | |- context [qlt ?c (- cmp)] =>
      let E := fresh "E" in
      destruct (qlt c (- cmp)) eqn:E; [rewrite (qlt_mono_r c _ _ Hpv E)|]
  end;
  cbn [andb orb fst]; try reflexivity; try discriminate;
  repeat match goal with
  | |- context [qlt ?c (- cmp')] => destruct (qlt c (- cmp'))
  end; cbn [andb orb fst]; congruence.
Qed.

(** X8: the battery-power average never changes turnOn, and a larger
    average [bp'] (a smaller batteryPower = -bp') never withdraws a
    turn-off. *)
Theorem X8_battery_power_effect (on : bool) (soc bp bp' cmp exp : Q) :
  fst (_update (snapshot on soc bp cmp exp)) = fst (_update (snapshot on soc bp' cmp exp)) /\
  ((bp <= bp')%Q ->
   snd (_update (snapshot on soc bp cmp exp)) = true ->
   snd (_update (snapshot on soc bp' cmp exp)) = true).
Proof.
  unfold snapshot. rewrite !_update_present. unfold overrides, tiers.
  split.
  - destruct (qle soc 89), (qle soc 96), (qeq soc 97 || qeq soc 98), (qeq soc 99),
      (qeq soc 100), (qle 90 soc), (qlt 300 (exp * 1000)), (qlt 0 (- cmp)); reflexivity.
  - intros Hb. assert (Hbp : (- bp' <= - bp)%Q) by lra.
    destruct (qle soc 89), (qle soc 96), (qeq soc 97 || qeq soc 98), (qeq soc 99),
      (qeq soc 100), (qle 90 soc), (qlt 300 (exp * 1000)), (qlt 0 (- cmp)),
      (qlt 80 (exp * 1000)), on;
      cbn [andb orb fst snd];
    repeat match goal with
    | |- context [qlt (- bp) ?c] =>
        let E := fresh "E" in
        destruct (qlt (- bp) c) eqn:E; [rewrite (qlt_mono_l c _ _ Hbp E)|]
    end;
    cbn [andb orb fst snd]; try reflexivity; try discriminate;
    repeat match goal with
    | |- context [qlt (- bp') ?c] => destruct (qlt (- bp') c)
    end; cbn [andb orb fst snd]; congruence.
Qed.

(** X9: at a full battery (soc = 100) the two outputs are never both true. *)
Theorem X9_full_battery_exclusive (on : bool) (soc bp cmp exp : Q) :
  (soc == 100)%Q ->
  _update (snapshot on soc bp cmp exp) <> (true, true).
Proof.
  intros H100. unfold snapshot. rewrite _update_present. unfold overrides, tiers.
  rewrite (qle_false soc 89), (qle_false soc 96) by lra.
  rewrite (qeq_false soc 97), (qeq_false soc 98), (qeq_false soc 99) by lra.
  rewrite (proj2 (qeq_spec soc 100) H100), (proj2 (qle_spec 90 soc)) by lra.
  cbn [orb].
  destruct (qlt 300 (exp * 1000) && qlt 0 (- cmp)); [destruct (qlt 80 (exp * 1000) && on); discriminate|].
  destruct (qlt 80 (exp * 1000) && on); [discriminate|].
  destruct (qlt HEATER_POWER (- cmp)) eqn:E1, (qlt (- cmp) 0) eqn:E2; try discriminate.
  apply qlt_spec in E1. apply qlt_spec in E2. unfold HEATER_POWER in E1. lra.
Qed.

Lemma X9_full_battery_exclusive_witness :
  _update (snapshot true 100 (-200) (-3500) 0) <> (true, true).
Proof.
  apply X9_full_battery_exclusive. reflexivity.
Defined.

End ExtraHeater.

Section ExtraHeaterWitnesses.
Import Ems.

Lemma X7_turn_on_monotone_in_pv_witness :
  fst (_update (snapshot false 95 0 (-5000) 0)) = true.
Proof.
  apply (X7_turn_on_monotone_in_pv false 95 0 (-4000) (-5000) 0).
  - unfold Qle; simpl; lia.
  - vm_compute. reflexivity.
Defined.

Lemma X8_battery_power_effect_witness :
  snd (_update (snapshot false 95 (-20) (-3100) 0)) = true.
Proof.
  apply (proj2 (X8_battery_power_effect false 95 (-50) (-20) (-3100) 0)).
  - unfold Qle; simpl; lia.
  - vm_compute. reflexivity.
Defined.

End ExtraHeaterWitnesses.

(** ** Further properties of the adapter *)

Section ExtraAdapter.
Import Ems Adapter.
Import Stdlib.Strings.String.

Variable float_of_string : string -> option Q.

Lemma state_changed_input_fields states e new_state :
  state_changed_input float_of_string states e new_state =
  {| water_heater_is_on := map_on_off (value_at states e new_state water_heater_switch);
     battery_soc := map_float float_of_string (value_at states e new_state battery_state_of_charge);
     battery_power_2_minutes :=
       map_float float_of_string (value_at states e new_state battery_power_avg_2_minutes);
     consumption_minus_pv_2_minutes :=
       map_float float_of_string
         (value_at states e new_state house_consumption_minus_pv_avg_2_minutes);
     exported_energy_hourly :=
       map_float float_of_string (value_at states e new_state total_export_import_hourly) |}.
Proof.
  unfold state_changed_input, update_input_state, value_at.
  destruct e; cbn;
    destruct (states water_heater_switch), (states battery_state_of_charge),
      (states battery_power_avg_2_minutes),
      (states house_consumption_minus_pv_avg_2_minutes),
      (states total_export_import_hourly); reflexivity.
Qed.

Lemma update_input_state_fields states :
  update_input_state float_of_string states InputState_new =
  {| water_heater_is_on := map_on_off (states water_heater_switch);
     battery_soc := map_float float_of_string (states battery_state_of_charge);
     battery_power_2_minutes := map_float float_of_string (states battery_power_avg_2_minutes);
     consumption_minus_pv_2_minutes :=
       map_float float_of_string (states house_consumption_minus_pv_avg_2_minutes);
     exported_energy_hourly := map_float float_of_string (states total_export_import_hourly) |}.
Proof.
  unfold update_input_state; cbn.
  destruct (states water_heater_switch), (states battery_state_of_charge),
    (states battery_power_avg_2_minutes),
    (states house_consumption_minus_pv_avg_2_minutes),
    (states total_export_import_hourly); reflexivity.
Qed.

Lemma update_absent_field (st : InputState) :
  water_heater_is_on st = None \/ battery_soc st = None \/
  battery_power_2_minutes st = None \/ consumption_minus_pv_2_minutes st = None \/
  exported_energy_hourly st = None ->
  _update st = (false, false).
Proof.
  intros Habs. unfold _update.
  replace (_none_present st) with true; [reflexivity|].
  unfold _none_present.
  destruct st as [w s b c x]; cbn in *.
  destruct Habs as [H|[H|[H|[H|H]]]]; rewrite H;
    destruct w, s, b, c, x; reflexivity.
Qed.

(** The decision taken on a state change is the heater's rule applied to
    the mapped states of the five entities, the changed entity's field
    being mapped from the event's new state. *)
Lemma X10_state_changed_reads_event_state states e new_state :
  state_changed float_of_string states e new_state =
  _update {| water_heater_is_on := map_on_off (value_at states e new_state water_heater_switch);
     battery_soc := map_float float_of_string (value_at states e new_state battery_state_of_charge);
     battery_power_2_minutes :=
       map_float float_of_string (value_at states e new_state battery_power_avg_2_minutes);
     consumption_minus_pv_2_minutes :=
       map_float float_of_string
         (value_at states e new_state house_consumption_minus_pv_avg_2_minutes);
     exported_energy_hourly :=
       map_float float_of_string (value_at states e new_state total_export_import_hourly) |}.
Proof.
  unfold state_changed. now rewrite state_changed_input_fields.
Qed.

(** A removed entity ([new_state] is [None]), or a tracked entity other
    than the changed one with no state in the state machine, leaves the
    heater with neither a turn-on nor a turn-off request. *)
Lemma X11_state_changed_missing_entity states e new_state :
  (new_state = None \/ exists e', e' <> e /\ states e' = None) ->
  state_changed float_of_string states e new_state = (false, false).
Proof.
  intros H. unfold state_changed. rewrite state_changed_input_fields.
  apply update_absent_field; cbn.
  destruct H as [-> | [e' [Hne Hs]]].
  - unfold value_at; destruct e; cbn; auto 10.
  - unfold value_at; destruct e', e; try congruence; cbn; rewrite Hs; cbn; auto 10.
Qed.

(** A relay state other than ["on"] and ["off"] (["unavailable"], say)
    leaves the heater with neither a turn-on nor a turn-off request. *)
Lemma X12_state_changed_unmapped_relay states e new_state v :
  value_at states e new_state water_heater_switch = Some v ->
  v <> "on"%string -> v <> "off"%string ->
  state_changed float_of_string states e new_state = (false, false).
Proof.
  intros Hv Hon Hoff. unfold state_changed. rewrite state_changed_input_fields.
  apply update_absent_field; cbn. left.
  rewrite Hv. unfold map_on_off.
  destruct (String.eqb_spec v "on"); [congruence|].
  destruct (String.eqb_spec v "off"); [congruence|].
  reflexivity.
Qed.

(** An event whose new state is the state already in the state machine
    gives the same decision as the start-up evaluation. *)
Lemma X13_state_changed_agrees_with_startup states e :
  state_changed float_of_string states e (states e) = hass_started float_of_string states.
Proof.
  unfold state_changed, hass_started.
  rewrite state_changed_input_fields, update_input_state_fields.
  unfold value_at; destruct e; reflexivity.
Qed.

End ExtraAdapter.

Section ExtraAdapterWitnesses.
Import Stdlib.Strings.String.

Definition sample_states (e : Adapter.Entity) : option String.string :=
  match e with
  | Adapter.water_heater_switch => Some "unavailable"%string
  | _ => Some "1"%string
  end.

Lemma X11_state_changed_missing_entity_witness :
  Adapter.state_changed (fun _ => Some 1%Q) sample_states
    Adapter.battery_state_of_charge None = (false, false).
Proof.
  apply X11_state_changed_missing_entity. left. reflexivity.
Defined.

Lemma X12_state_changed_unmapped_relay_witness :
  Adapter.state_changed (fun _ => Some 1%Q) sample_states
    Adapter.battery_state_of_charge (Some "2"%string) = (false, false).
Proof.
  apply (X12_state_changed_unmapped_relay _ _ _ _ "unavailable"%string);
    [reflexivity | discriminate | discriminate].
Defined.

End ExtraAdapterWitnesses.

(** ** Further properties of the refresh *)

Section ExtraCoordinator.
Import Ems Coordinator.

Variable api : Z -> fetch_outcome.

(** A refresh fetches at most two days, each one today's date or the
    date one day later. *)
Lemma X14_refresh_fetches_today_or_tomorrow (now : Z) (st : CoordState) :
  Forall (fun d => d = now \/ d = (now + DAY)%Z) (snd (async_refresh api now st)) /\
  (length (snd (async_refresh api now st)) <= 2)%nat.
Proof.
  assert (H : forall log r, _async_update_data api now (data st) [] = (log, r) ->
            Forall (fun d => d = now \/ d = (now + DAY)%Z) log /\ (length log <= 2)%nat).
  { intros log r.
    unfold _async_update_data, _full_update, bind, ret, lift, _fetch_prices_for_day.
    destruct (data st) as [d|]; [destruct (today d) as [t|]|];
      [destruct (negb (date_of (fetched_at d) =? date_of now));
       [|destruct (tomorrow d); [|destruct (RCE_TOMORROW_PUBLICATION_HOUR <=? hour_of now)]]|..];
      cbn;
      repeat match goal with
             | |- context [api ?x] => destruct (api x)
             end; cbn; intros E; injection E as <- <-;
      (split; [repeat (apply Forall_cons; [auto|]); apply Forall_nil | cbn; lia]). }
  unfold async_refresh.
  destruct (_async_update_data api now (data st) []) as [log r] eqn:E.
  destruct r; exact (H log _ eq_refl).
Qed.




End ExtraCoordinator.

Section ExtraCoordinatorWitnesses.
Import Ems Coordinator.






End ExtraCoordinatorWitnesses.

(** ** Further properties of the weather listener *)

Section ExtraWeather.
Import Weather.

Variable Item : Type.
Variable item_eqb : Item -> Item -> bool.
Variable forecast_day_of : Item -> Z.

Abbreviation has_changed := (_has_hourly_forecast_changed Item item_eqb forecast_day_of).
Abbreviation listener := (forecast_listener Item item_eqb forecast_day_of).

Lemma list_eqb_length (a b : list Item) :
  list_eqb Item item_eqb a b = true -> length a = length b.
Proof.
  revert b; induction a as [|x a IH]; intros [|y b]; cbn; try discriminate; auto.
  intros H. apply andb_prop in H as [_ H]. f_equal. auto.
Qed.

Lemma py_index_in {A} (l : list A) (i : nat) :
  (i < length l)%nat -> exists x, py_index l i = WOk x.
Proof.
  intros H. unfold py_index.
  destruct (nth_error l i) as [x|] eqn:E; [eauto|].
  apply nth_error_None in E. lia.
Qed.

Lemma py_index_out {A} (l : list A) (i : nat) :
  (length l <= i)%nat -> py_index l i = WErr WIndexError.
Proof.
  intros H. unfold py_index. now rewrite (proj2 (nth_error_None l i) H).
Qed.

(** The forecast counts as unchanged, with nothing saved, exactly when a
    non-empty forecast was saved for the same day and the new forecast is
    equal to it. *)
Lemma X18_forecast_unchanged_iff (first : Item) (rest : list Item) (s : WState Item) :
  has_changed (first :: rest) s = (s, WOk false) <->
  exists last, last_hourly_forecast s = Some last /\ last <> [] /\
    last_hourly_forecast_day s = Some (forecast_day_of first) /\
    list_eqb Item item_eqb (first :: rest) last = true.
Proof.
  split.
  - unfold _has_hourly_forecast_changed, _save_forecast_to_file. cbn [py_index nth_error].
    destruct s as [last lday]; cbn [last_hourly_forecast last_hourly_forecast_day].
    destruct last as [[|y l]|]; try discriminate.
    destruct lday as [d|]; try discriminate.
    destruct (forecast_day_of first =? d)%Z eqn:Ed; cbn [negb]; [|discriminate].
    apply Z.eqb_eq in Ed. subst d.
    destruct (_ =? 0)%Z.
    + destruct (list_eqb Item item_eqb (first :: rest) (y :: l)) eqn:Eq; cbn [negb];
        [|discriminate].
      intros _. exists (y :: l). repeat split; auto. discriminate.
    + destruct (0 <? _)%Z; [|discriminate].
      repeat match goal with
             | |- context [match ?x with WOk _ => _ | WErr _ => _ end] => destruct x
             | |- context [if ?b then _ else _] => destruct b
             end; discriminate.
  - intros [last [Hl [Hne [Hd Heq]]]].
    pose proof (list_eqb_length _ _ Heq) as Hlen.
    unfold _has_hourly_forecast_changed. cbn [py_index nth_error].
    rewrite Hl, Hd. destruct last as [|y l]; [congruence|].
    rewrite Z.eqb_refl. cbn [negb].
    rewrite <- Hlen, Z.sub_diag, Z.eqb_refl, Heq. reflexivity.
Qed.

(** A shorter forecast for the same day that equals the end of the saved
    one (past hours dropped) is reported as changed but is not saved. *)
Lemma X19_forecast_tail_reported_not_saved (forecast last : list Item) (s : WState Item)
    (first : Item) :
  hd_error forecast = Some first ->
  last_hourly_forecast s = Some last ->
  last_hourly_forecast_day s = Some (forecast_day_of first) ->
  (2 <= length forecast)%nat -> (length forecast < length last)%nat ->
  list_eqb Item item_eqb forecast (skipn (length last - length forecast) last) = true ->
  has_changed forecast s = (s, WOk true).
Proof.
  intros Hhd Hl Hd H2 Hlt Heq.
  destruct forecast as [|x rest]; [discriminate|]. injection Hhd as ->.
  unfold _has_hourly_forecast_changed. cbn [py_index nth_error].
  rewrite Hl, Hd. destruct last as [|y l]; [cbn in Hlt; lia|].
  rewrite Z.eqb_refl. cbn [negb].
  set (n := length (y :: l)) in *. set (k := length (first :: rest)) in *.
  replace (Z.of_nat n - Z.of_nat k =? 0)%Z with false by (symmetry; apply Z.eqb_neq; lia).
  replace (0 <? Z.of_nat n - Z.of_nat k)%Z with true by (symmetry; apply Z.ltb_lt; lia).
  replace (Z.to_nat (Z.of_nat n - Z.of_nat k)) with (n - k)%nat by lia.
  destruct (py_index_in (y :: l) (n - k)) as [a Ha]; [unfold n; lia|]. rewrite Ha.
  destruct (py_index_in (y :: l) (n - k + 1)) as [b Hb]; [unfold n; lia|]. rewrite Hb.
  destruct (py_index_in (first :: rest) 1) as [c Hc]; [unfold k in H2; lia|]. rewrite Hc.
  cbn [py_index nth_error]. rewrite Heq. reflexivity.
Qed.

(** An empty forecast raises [IndexError], and so does a one-hour
    forecast for the same day as a saved forecast of two or more hours;
    neither saves anything. *)
Lemma X20_forecast_index_errors (s : WState Item) (x : Item) (last : list Item) :
  has_changed [] s = (s, WErr WIndexError) /\
  (last_hourly_forecast s = Some last -> (2 <= length last)%nat ->
   last_hourly_forecast_day s = Some (forecast_day_of x) ->
   has_changed [x] s = (s, WErr WIndexError)).
Proof.
  split; [reflexivity|].
  intros Hl H2 Hd.
  unfold _has_hourly_forecast_changed. cbn [py_index nth_error].
  rewrite Hl, Hd. destruct last as [|y l]; [cbn in H2; lia|].
  rewrite Z.eqb_refl. cbn [negb].
  set (n := length (y :: l)) in *. cbn [length Z.of_nat Pos.of_succ_nat].
  replace (Z.of_nat n - 1 =? 0)%Z with false by (symmetry; apply Z.eqb_neq; lia).
  replace (0 <? Z.of_nat n - 1)%Z with true by (symmetry; apply Z.ltb_lt; lia).
  replace (Z.to_nat (Z.of_nat n - 1)) with (n - 1)%nat by lia.
  destruct (py_index_in (y :: l) (n - 1)) as [a Ha]; [unfold n; lia|]. rewrite Ha.
  cbn [py_index nth_error].
  rewrite (py_index_out (y :: l) (n - 1 + 1)); [reflexivity | unfold n; lia].
Qed.

(** With a listener registered, a forecast that differs from
    [forecast_hourly] is stored and the tracking state updated, and then
    notifying the listeners raises [TypeError]. *)
Lemma X21_forecast_listener_notify_raises (f : list Item) (st : WLState Item) (n : nat)
    (b : bool) :
  shutdown_requested st = false -> listeners st = S n ->
  snd (has_changed f (wstate st)) = WOk b ->
  forecast_neq Item item_eqb (forecast_hourly st) (Some f) = true ->
  forecast_hourly (fst (listener (Some f) st)) = Some f /\
  wstate (fst (listener (Some f) st)) = fst (has_changed f (wstate st)) /\
  snd (listener (Some f) st) = WErr WTypeError.
Proof.
  intros Hsd Hn Hr Hneq.
  unfold forecast_listener. rewrite Hsd.
  destruct (has_changed f (wstate st)) as [w r]. cbn in Hr. subst r.
  rewrite Hneq. unfold _async_update_listeners. cbn. rewrite Hn.
  repeat split; reflexivity.
Qed.

End ExtraWeather.

Section ExtraWeatherWitnesses.
Import Weather.

Definition saved_forecast : WState Z :=
  {| last_hourly_forecast := Some [10%Z; 11%Z; 12%Z]; last_hourly_forecast_day := Some 0%Z |}.

Lemma X19_forecast_tail_reported_not_saved_witness :
  _has_hourly_forecast_changed Z Z.eqb (fun _ => 0%Z) [11%Z; 12%Z] saved_forecast =
    (saved_forecast, WOk true).
Proof.
  apply (X19_forecast_tail_reported_not_saved Z Z.eqb (fun _ => 0%Z) _ [10%Z; 11%Z; 12%Z]
           _ 11%Z); cbn; (reflexivity || lia).
Defined.

Lemma X20_forecast_index_errors_witness :
  _has_hourly_forecast_changed Z Z.eqb (fun _ => 0%Z) [12%Z] saved_forecast =
    (saved_forecast, WErr WIndexError).
Proof.
  apply (proj2 (X20_forecast_index_errors Z Z.eqb (fun _ => 0%Z) saved_forecast 12%Z
                  [10%Z; 11%Z; 12%Z])); cbn; (reflexivity || lia).
Defined.

Definition listening_state : WLState Z :=
  {| wstate := saved_forecast; forecast_hourly := Some [10%Z; 11%Z; 12%Z];
     shutdown_requested := false; listeners := 1%nat |}.

Lemma X21_forecast_listener_notify_raises_witness :
  snd (forecast_listener Z Z.eqb (fun _ => 0%Z) (Some [11%Z; 12%Z; 13%Z]) listening_state) =
    WErr WTypeError.
Proof.
  refine (proj2 (proj2 (X21_forecast_listener_notify_raises Z Z.eqb (fun _ => 0%Z)
                          [11%Z; 12%Z; 13%Z] listening_state 0 true _ _ _ _)));
    reflexivity.
Defined.

End ExtraWeatherWitnesses.

(** ** The end-charge-hour sensor *)

Section ExtraEndSensor.
Import Ems Sensors.

(** The End Charge Hour sensor never changes its value: without today's
    prices its update does nothing, and with a series of at least 16 of
    them it raises [AttributeError], since [EmsDayPrices] has no method
    [end_start_charge_hour]. *)
Lemma X22_end_charge_hour_sensor_never_set (data : option RceData) (v : option pynum) :
  fst (end_charge_hour_update data v) = v /\
  (forall d t, data = Some d -> today d = Some t -> (16 <= length (rce_prices t))%nat ->
   snd (end_charge_hour_update data v) = RaisedAttributeError).
Proof.
  split.
  - destruct data as [d|]; [|reflexivity]. cbn.
    destruct (today d); reflexivity.
  - intros d t -> Ht _. cbn. rewrite Ht. reflexivity.
Qed.

Lemma X22_end_charge_hour_sensor_never_set_witness :
  snd (end_charge_hour_update
         (Some {| fetched_at := 0; today := Some {| rce_day := 0; rce_prices := Series.two_dips |};
                  tomorrow := None |}) None) = RaisedAttributeError.
Proof.
  refine (proj2 (X22_end_charge_hour_sensor_never_set _ None)
            {| fetched_at := 0; today := Some {| rce_day := 0; rce_prices := Series.two_dips |};
               tomorrow := None |}
            {| rce_day := 0; rce_prices := Series.two_dips |} eq_refl eq_refl _).
  apply Nat.leb_le. vm_compute. reflexivity.
Defined.

End ExtraEndSensor.
